(** * hw2: aggregate statistics over user records ([UserStatsUtils])

    A shallow embedding of [src/hw2/src/utils/user_stats.py].

    - Python [int] is [Z]; [//] and [%] are [Z.div] and [Z.modulo] (both
      round towards minus infinity for a positive divisor, as Python does),
      with the [ZeroDivisionError] of a zero divisor written out.
    - A [datetime] is the number of microseconds since a fixed origin and a
      [timedelta] a number of microseconds: both types have microsecond
      resolution and their subtraction and comparison are exact.
    - The two files the class touches live in a store of path -> text; the
      wall clock is a sequence of readings, one consumed by every
      [datetime.now()].
    - Exceptions are values: every method is a computation in a state and
      error monad over the store and the clock position. *)

From Stdlib Require Import ZArith List Lia Sorted Permutation.
From stdpp Require Import base option list gmap strings fin_maps.

Local Open Scope Z_scope.

(** ** Exceptions and the monad *)

Inductive exn : Type :=
  | FileNotFoundError
  | JSONDecodeError
  | MsgspecDecodeError
  | ValidationError
  | TypeError
  | AttributeError
  | IndexError
  | ZeroDivisionError.

Inductive result (A : Type) : Type :=
  | Return (a : A)
  | Raise (e : exn).
Arguments Return {A} a.
Arguments Raise {A} e.

(** The part of the world the class reads and writes: the files, and how
    many times the clock has been read. *)
Record World : Type := mkWorld {
  fs : gmap string string;
  now_calls : nat
}.

Definition M (A : Type) : Type := World -> World * result A.

Definition ret {A} (a : A) : M A := fun w => (w, Return a).

Definition raise {A} (e : exn) : M A := fun w => (w, Raise e).

Definition bind {A B} (m : M A) (k : A -> M B) : M B :=
  fun w =>
    match m w with
    | (w', Return a) => k a w'
    | (w', Raise e) => (w', Raise e)
    end.

(** [try: m except h]: the handler sees the exception and decides whether
    it is one of those its [except] clause names. *)
Definition try_except {A} (m : M A) (h : exn -> M A) : M A :=
  fun w =>
    match m w with
    | (w', Return a) => (w', Return a)
    | (w', Raise e) => h e w'
    end.

Definition lift {A} (r : result A) : M A := fun w => (w, r).

Notation "x <- c1 ;; c2" := (bind c1 (fun x => c2))
  (at level 100, c1 at next level, right associativity).
Notation "c1 ;; c2" := (bind c1 (fun _ => c2))
  (at level 100, right associativity).

(** ** Python built-ins used by the class *)

Definition len {A} (l : list A) : Z := Z.of_nat (length l).

(** [sum(l)]: accumulates from the left, starting at 0. *)
Definition py_sum (l : list Z) : Z := fold_left Z.add l 0.

(** [a // b] *)
Definition py_floordiv (a b : Z) : result Z :=
  if b =? 0 then Raise ZeroDivisionError else Return (a / b).

(** [l[i]], negative indices counting from the end. *)
Definition py_getitem (l : list Z) (i : Z) : result Z :=
  let j := if i <? 0 then i + len l else i in
  if (j <? 0) || (len l <=? j) then Raise IndexError
  else match l !! Z.to_nat j with
       | Some x => Return x
       | None => Raise IndexError
       end.

(** ** The median of a list

    The median as the specification means it, independent of the order the
    values come in: the middle value of the list put in ascending order,
    and the floor of the average of the two middle values when their number
    is even. *)

Fixpoint insert_ascending (x : Z) (l : list Z) : list Z :=
  match l with
  | [] => [x]
  | y :: rest => if x <=? y then x :: y :: rest else y :: insert_ascending x rest
  end.

Fixpoint ascending (l : list Z) : list Z :=
  match l with
  | [] => []
  | x :: rest => insert_ascending x (ascending rest)
  end.

Definition spec_median (l : list Z) : Z :=
  let s := ascending l in
  let n := length s in
  if Nat.even n
  then (nth (n / 2 - 1) s 0 + nth (n / 2) s 0) / 2
  else nth (n / 2) s 0.

(** ** Time *)

Definition datetime : Type := Z.
Definition timedelta : Type := Z.

Definition microseconds_per_day : Z := 86400000000.

(** [timedelta(days=d)] *)
Definition timedelta_days (d : Z) : timedelta := d * microseconds_per_day.

(** ** The user record and the periods *)

(** Modelled from the spec: [schemas.User] is not in src. The spec takes it
    as a given validated record with an age and a last-login timestamp; the
    code reads [user.age] and [datetime.fromisoformat(str(user.last_login))],
    the timestamp that [last_login] denotes. *)
Record User : Type := mkUser {
  age : Z;
  last_login : datetime
}.

(** [hw2.src.enums.Period]: the four members the class names. Their values
    (numbers of days) are declared outside src and are a parameter below. *)
Inductive Period : Type :=
  | two_days
  | week
  | month
  | half_of_year.

(** What [json.load] can give back: a mapping of name to raw record, in the
    order of the file, or some other JSON value. *)
Inductive JSON (RawUser : Type) : Type :=
  | JObject (items : list (string * RawUser))
  | JOther.
Arguments JObject {RawUser} items.
Arguments JOther {RawUser}.

(** Outcome of [msgspec.json.decode(..., type=schemas.User)]; the decoded
    value is dropped by the caller. *)
Inductive msgspec_outcome : Type :=
  | Decoded
  | Invalid
  | Malformed.

Record UserStatsUtils : Type := mkUserStatsUtils {
  data_file_path : string;
  output_file_path : string;
  all_ages : list Z
}.

(** ** A concrete setting

    Small stand-ins for the collaborators outside src, to run the class on:
    a raw record is a list of keyword and integer, the data file holds one
    of a few known texts, and the clock advances by one microsecond at every
    reading. *)
Module Demo.

Definition RawUser : Type := list (string * Z).

Fixpoint keyword (k : string) (r : RawUser) : option Z :=
  match r with
  | [] => None
  | (k', v) :: rest => if String.eqb k k' then Some v else keyword k rest
  end.

Definition get_valid_dict_to_str (r : RawUser) : string :=
  match keyword "age" r, keyword "last_login" r with
  | Some _, Some _ => "ok"
  | _, _ => "missing"
  end.

Definition msgspec_json_decode (s : string) : msgspec_outcome :=
  if String.eqb s "ok" then Decoded else Invalid.

Definition User_init (r : RawUser) : option User :=
  match r with
  | [("age"%string, a); ("last_login"%string, t)] => Some (mkUser a t)
  | _ => None
  end.

Definition ann : RawUser := [("age", 31); ("last_login", 0)]%string.
Definition bob : RawUser := [("age", 20); ("last_login", 90 * 86400000000)]%string.
Definition cy : RawUser := [("age", 44); ("last_login", 99 * 86400000000)]%string.
Definition nameless : RawUser := [("age", 5)]%string.

Definition json_loads (txt : string) : option (JSON RawUser) :=
  if String.eqb txt "three users" then
    Some (JObject [("ann", ann); ("bob", bob); ("cy", cy)]%string)
  else if String.eqb txt "broken record" then
    Some (JObject [("ann", ann); ("x", nameless); ("cy", cy)]%string)
  else if String.eqb txt "a list" then Some JOther
  else None.



Definition ErrorObject : Type := string.
Definition create_error_object (msg : string) : ErrorObject := msg.
Definition json_dumps (obj : ErrorObject) : string := obj.

Definition Period_value (p : Period) : Z :=
  match p with
  | two_days => 2
  | week => 7
  | month => 30
  | half_of_year => 180
  end.

(** The first reading is 100 days after the origin. *)
Definition clock (k : nat) : datetime := 100 * 86400000000 + Z.of_nat k.

(** A clock read 1000 days after the origin. *)
Definition late_clock (k : nat) : datetime := 1000 * 86400000000 + Z.of_nat k.

(** A clock that stands still, 100 days after the origin. *)
Definition frozen_clock (k : nat) : datetime := 100 * 86400000000.

(** Two users, the first offline for exactly 180 days when the clock
    stands 100 days after the origin. *)
Definition edge_pair : list User :=
  [mkUser 50 (- (80 * 86400000000)); mkUser 20 (90 * 86400000000)].

(** The models of the text "three users". *)
Definition three : list User :=
  [mkUser 31 0; mkUser 20 (90 * 86400000000); mkUser 44 (99 * 86400000000)].

Definition self (ages : list Z) : UserStatsUtils :=
  mkUserStatsUtils "in.json" "out.json" ages.

Definition world (txt : string) : World :=
  mkWorld {[ "in.json"%string := txt ]} 0.

End Demo.

Section UserStats.

(** The collaborators that live outside src. *)
Variable RawUser : Type.
Variable ErrorObject : Type.
(** [json.loads]: [None] is [json.JSONDecodeError]. *)
Variable json_loads : string -> option (JSON RawUser).
(** [json.dumps] on the objects the class writes. *)
Variable json_dumps : ErrorObject -> string.
Variable create_error_object : string -> ErrorObject.
Variable get_valid_dict_to_str : RawUser -> string.
Variable msgspec_json_decode : string -> msgspec_outcome.
(** [schemas.User] called on the keywords of [user_data]: [None] is the
    [TypeError] of a missing or unexpected keyword. *)
Variable User_init : RawUser -> option User.
(** [Period.value], in days. *)
Variable Period_value : Period -> Z.
(** The k-th reading of [datetime.now()]. *)
Variable clock : nat -> datetime.

(** *** Files and clock *)

(** [open(path, 'r')]: the handle is the path; the text is read when
    [json.load] asks for it. *)
Definition open_r (path : string) : M string :=
  fun w =>
    match fs w !! path with
    | Some _ => (w, Return path)
    | None => (w, Raise FileNotFoundError)
    end.

(** [open(path, 'w')]: creates or truncates. The store is flat, so every
    path can be created: that the output path can be opened for writing is
    an assumption of this model (the class checks its two paths when it is
    built, in [validate_file_path], outside src). Statements about what
    [users] leaves in the files are therefore made for the runs that got
    past the two [open] calls. *)
Definition open_w (path : string) : M string :=
  fun w => (mkWorld (<[path := ""%string]> (fs w)) (now_calls w), Return path).

Definition json_load (fp : string) : M (JSON RawUser) :=
  fun w =>
    match fs w !! fp with
    | Some txt =>
        match json_loads txt with
        | Some j => (w, Return j)
        | None => (w, Raise JSONDecodeError)
        end
    | None => (w, Raise FileNotFoundError)
    end.

Definition json_dump (obj : ErrorObject) (fp : string) : M unit :=
  fun w =>
    let old := default ""%string (fs w !! fp) in
    (mkWorld (<[fp := String.append old (json_dumps obj)]> (fs w)) (now_calls w),
     Return tt).

Definition datetime_now : M datetime :=
  fun w => (mkWorld (fs w) (S (now_calls w)), Return (clock (now_calls w))).

(** *** [validate_user_models] *)

Definition msgspec_check (user_data : RawUser) : result unit :=
  match msgspec_json_decode (get_valid_dict_to_str user_data) with
  | Decoded => Return tt
  | Invalid => Raise ValidationError
  | Malformed => Raise MsgspecDecodeError
  end.

(** The [for] loop, with the list [users] it appends to. *)
Fixpoint validate_loop (values : list RawUser) (users : list User)
  : result (list User) :=
  match values with
  | [] => Return users
  | user_data :: rest =>
      match msgspec_check user_data with
      | Raise e => Raise e
      | Return _ =>
          match User_init user_data with
          | None => Raise TypeError
          | Some u => validate_loop rest (users ++ [u])
          end
      end
  end.

Definition validate_user_models (users_data : JSON RawUser) : result (list User) :=
  match users_data with
  | JObject items => validate_loop (map snd items) []
  | JOther => Raise AttributeError
  end.

(** *** The [users] property *)

Definition users (self : UserStatsUtils) : M (list User) :=
  data_file <- open_r (data_file_path self) ;;
  output_file <- open_w (output_file_path self) ;;
  users_data <-
    try_except (json_load data_file)
      (fun e =>
         match e with
         | JSONDecodeError =>
             json_dump (create_error_object "Invalid JSON file provided") output_file ;;
             raise e
         | _ => raise e
         end) ;;
  us <-
    try_except (lift (validate_user_models users_data))
      (fun e =>
         match e with
         | ValidationError =>
             json_dump (create_error_object "Validation error for user items") output_file ;;
             raise e
         | _ => raise e
         end) ;;
  ret us.

(** *** Offline buckets *)

Definition user_is_offline_lt_target_period
    (user_item : User) (target_period : Period) : M bool :=
  let last_login_date := last_login user_item in
  let target_date := timedelta_days (Period_value target_period) in
  now <- datetime_now ;;
  ret (now - last_login_date <? target_date).

(** [list(filter(f, l))] for a predicate with effects. *)
Fixpoint py_filter {A} (f : A -> M bool) (l : list A) : M (list A) :=
  match l with
  | [] => ret []
  | x :: rest =>
      b <- f x ;;
      kept <- py_filter f rest ;;
      ret (if b then x :: kept else kept)
  end.

Definition get_lt_period_offline_users_avg_age
    (self : UserStatsUtils) (target_period : Period) : M Z :=
  us <- users self ;;
  filtered_by_offline_period <-
    py_filter (fun user_item => user_is_offline_lt_target_period user_item target_period) us ;;
  let number_of_users := len filtered_by_offline_period in
  if number_of_users =? 0 then ret 0
  else lift (py_floordiv (py_sum (map age filtered_by_offline_period)) number_of_users).

(** The [for] loop of [get_gt_half_of_year_offline_users_avg_age], with
    the list of ages it appends to. *)
Fixpoint gt_loop (us : list User) (gt_half_year_offline_users : list Z) : M (list Z) :=
  match us with
  | [] => ret gt_half_year_offline_users
  | user :: rest =>
      let last_login_date := last_login user in
      let target_date := timedelta_days (Period_value half_of_year) in
      now <- datetime_now ;;
      if target_date <? now - last_login_date
      then gt_loop rest (gt_half_year_offline_users ++ [age user])
      else gt_loop rest gt_half_year_offline_users
  end.

Definition get_gt_half_of_year_offline_users_avg_age (self : UserStatsUtils) : M Z :=
  us <- users self ;;
  gt_half_year_offline_users <- gt_loop us [] ;;
  let number_of_users := len gt_half_year_offline_users in
  if number_of_users =? 0 then ret 0
  else lift (py_floordiv (py_sum gt_half_year_offline_users) number_of_users).

(** *** The [user_stats] property *)

Definition user_stats (self : UserStatsUtils) : M (gmap string Z) :=
  let number_of_users := len (all_ages self) in
  if number_of_users =? 0 then ret ∅
  else
    r <- lift (py_floordiv number_of_users 2) ;;
    let half_num_of_users := r in
    median_age <- lift (py_getitem (all_ages self) half_num_of_users) ;;
    median_age <-
      (if number_of_users mod 2 =? 0
       then
         a <- lift (py_getitem (all_ages self) half_num_of_users) ;;
         b <- lift (py_getitem (all_ages self) (half_num_of_users - 1)) ;;
         lift (py_floordiv (a + b) 2)
       else ret median_age) ;;
    max_age <- lift (py_getitem (all_ages self) (-1)) ;;
    min_age <- lift (py_getitem (all_ages self) 0) ;;
    avg_age <- lift (py_floordiv (py_sum (all_ages self)) number_of_users) ;;
    lt_two_days <- get_lt_period_offline_users_avg_age self two_days ;;
    lt_week <- get_lt_period_offline_users_avg_age self week ;;
    lt_month <- get_lt_period_offline_users_avg_age self month ;;
    lt_half_of_year <- get_lt_period_offline_users_avg_age self half_of_year ;;
    gt_half_of_year <- get_gt_half_of_year_offline_users_avg_age self ;;
    ret (<["gt_half_of_year_offline_users_average_age"%string := gt_half_of_year]>
         (<["lt_half_of_year_offline_users_average_age"%string := lt_half_of_year]>
         (<["lt_month_offline_users_average_age"%string := lt_month]>
         (<["lt_week_offline_users_average_age"%string := lt_week]>
         (<["lt_two_days_offline_users_average_age"%string := lt_two_days]>
         (<["median_age"%string := median_age]>
         (<["avg_age"%string := avg_age]>
         (<["min_age"%string := min_age]>
         (<["max_age"%string := max_age]> ∅))))))))).

(** *** Closed forms

    What the computations above come to, as functions of the store and of
    the clock position; the lemmas below prove the correspondence. *)

Definition truncated (self : UserStatsUtils) (f : gmap string string)
  : gmap string string :=
  <[output_file_path self := ""%string]> f.

Definition reported (self : UserStatsUtils) (msg : string) (f : gmap string string)
  : gmap string string :=
  <[output_file_path self := json_dumps (create_error_object msg)]> f.

Definition users_outcome (self : UserStatsUtils) (f : gmap string string)
  : gmap string string * result (list User) :=
  match f !! data_file_path self with
  | None => (f, Raise FileNotFoundError)
  | Some _ =>
      match truncated self f !! data_file_path self with
      | None => (truncated self f, Raise FileNotFoundError)
      | Some txt =>
          match json_loads txt with
          | None => (reported self "Invalid JSON file provided" f, Raise JSONDecodeError)
          | Some j =>
              match validate_user_models j with
              | Return us => (truncated self f, Return us)
              | Raise ValidationError =>
                  (reported self "Validation error for user items" f,
                   Raise ValidationError)
              | Raise e => (truncated self f, Raise e)
              end
          end
      end
  end.

(** A record passes the body of the loop: it decodes against the schema
    and the model is built from it. *)
Definition validates (user_data : RawUser) (u : User) : Prop :=
  msgspec_json_decode (get_valid_dict_to_str user_data) = Decoded /\
  User_init user_data = Some u.

(** The offline duration of [u] at the k-th reading of the clock. *)
Definition offline_duration (k : nat) (u : User) : timedelta :=
  clock k - last_login u.

(** The users kept by the filter when its first reading is the k-th. *)
Fixpoint lt_kept (p : Period) (k : nat) (us : list User) : list User :=
  match us with
  | [] => []
  | u :: rest =>
      if offline_duration k u <? timedelta_days (Period_value p)
      then u :: lt_kept p (S k) rest
      else lt_kept p (S k) rest
  end.

(** The ages the loop appends when its first reading is the k-th. *)
Fixpoint gt_kept (k : nat) (us : list User) : list Z :=
  match us with
  | [] => []
  | u :: rest =>
      if timedelta_days (Period_value half_of_year) <? offline_duration k u
      then age u :: gt_kept (S k) rest
      else gt_kept (S k) rest
  end.

(** The last four lines of both bucket methods. *)
Definition bucket_avg (ages : list Z) : Z :=
  if len ages =? 0 then 0 else py_sum ages / len ages.

(** Users paired with the position of the clock reading each one is
    compared at. *)
Definition readings (k : nat) (us : list User) : list (nat * User) :=
  combine (seq k (length us)) us.

(** The bucket "offline for less than [p]": the users whose offline
    duration, at the reading each one is compared at, is strictly less
    than [p] days; in the order of the list. *)
Definition lt_bucket (p : Period) (k : nat) (us : list User) : list User :=
  map snd
    (List.filter
       (fun iu : nat * User =>
          clock (fst iu) - last_login (snd iu) <? Period_value p * microseconds_per_day)
       (readings k us)).

(** The bucket "offline for more than half of a year". *)
Definition gt_bucket (k : nat) (us : list User) : list User :=
  map snd
    (List.filter
       (fun iu : nat * User =>
          Period_value half_of_year * microseconds_per_day
            <? clock (fst iu) - last_login (snd iu))
       (readings k us)).

(** [q] is the floor of [s / n]. *)
Definition is_floor_div (s n q : Z) : Prop := n * q <= s < n * q + n.

(** In dictionary [d], [key] holds the average age of a bucket with ages
    [ages]: the floor of their sum over their number when there are
    any. *)
Definition holds_floor_avg (d : gmap string Z) (key : string) (ages : list Z) : Prop :=
  exists q : Z,
    d !! key = Some q /\
    (ages <> [] -> is_floor_div (py_sum ages) (len ages) q).

(** The median the property computes, by position. *)
Definition median_age_of (l : list Z) : Z :=
  let half := len l / 2 in
  if len l mod 2 =? 0
  then (nth (Z.to_nat half) l 0 + nth (Z.to_nat (half - 1)) l 0) / 2
  else nth (Z.to_nat half) l 0.

(** The dictionary display that [user_stats] returns. *)
Definition stats_dict (max_age min_age avg_age median_age
    lt_two_days lt_week lt_month lt_half_of_year gt_half_of_year : Z)
  : gmap string Z :=
  <["gt_half_of_year_offline_users_average_age"%string := gt_half_of_year]>
  (<["lt_half_of_year_offline_users_average_age"%string := lt_half_of_year]>
  (<["lt_month_offline_users_average_age"%string := lt_month]>
  (<["lt_week_offline_users_average_age"%string := lt_week]>
  (<["lt_two_days_offline_users_average_age"%string := lt_two_days]>
  (<["median_age"%string := median_age]>
  (<["avg_age"%string := avg_age]>
  (<["min_age"%string := min_age]>
  (<["max_age"%string := max_age]> ∅)))))))).

(** The dictionary for ages [l], users [us] and first clock reading [k]:
    the five bucket methods read the clock one after the other, once per
    user each. *)
Definition stats_of (l : list Z) (us : list User) (k : nat) : gmap string Z :=
  let n := length us in
  stats_dict
    (nth (length l - 1) l 0)
    (nth 0 l 0)
    (py_sum l / len l)
    (median_age_of l)
    (bucket_avg (map age (lt_kept two_days k us)))
    (bucket_avg (map age (lt_kept week (k + n) us)))
    (bucket_avg (map age (lt_kept month (k + 2 * n) us)))
    (bucket_avg (map age (lt_kept half_of_year (k + 3 * n) us)))
    (bucket_avg (gt_kept (k + 4 * n) us)).

(** What the output file holds once [users] has run with outcome [r]: the
    error object of the two failures the property reports, nothing
    otherwise. *)
Definition output_after (r : result (list User)) : string :=
  match r with
  | Raise JSONDecodeError =>
      json_dumps (create_error_object "Invalid JSON file provided")
  | Raise ValidationError =>
      json_dumps (create_error_object "Validation error for user items")
  | _ => ""%string
  end.

(** The keys of the dictionary [user_stats] builds. *)
Definition stats_keys : list string :=
  ["max_age"; "min_age"; "avg_age"; "median_age";
   "lt_two_days_offline_users_average_age";
   "lt_week_offline_users_average_age";
   "lt_month_offline_users_average_age";
   "lt_half_of_year_offline_users_average_age";
   "gt_half_of_year_offline_users_average_age"]%string.

(** ** The [users] property, step by step *)

Lemma users_run (self : UserStatsUtils) (w : World) :
  users self w =
  (mkWorld (fst (users_outcome self (fs w))) (now_calls w),
   snd (users_outcome self (fs w))).
Proof.
  destruct w as [f k].
  unfold users, users_outcome, bind, try_except, open_r, open_w, json_load,
    json_dump, lift, raise, ret, truncated, reported; simpl.
  destruct (f !! data_file_path self) as [t0|]; [|reflexivity]; simpl.
  destruct (<[output_file_path self:=""%string]> f !! data_file_path self)
    as [txt|]; simpl; [|reflexivity].
  destruct (json_loads txt) as [j|]; simpl.
  - destruct (validate_user_models j) as [us|e]; simpl; [reflexivity|].
    destruct e; simpl; try reflexivity.
    rewrite lookup_insert_eq; simpl. by rewrite insert_insert_eq.
  - rewrite lookup_insert_eq; simpl. by rewrite insert_insert_eq.
Qed.

(** The text [json.load] reads is the same at every call: opening the
    output file again changes nothing. *)
Lemma truncated_idem (self : UserStatsUtils) (f : gmap string string) :
  truncated self (truncated self f) = truncated self f.
Proof. unfold truncated. apply insert_insert_eq. Qed.

Lemma users_outcome_Return (self : UserStatsUtils) (f : gmap string string)
    (us : list User) :
  snd (users_outcome self f) = Return us ->
  users_outcome self f = (truncated self f, Return us).
Proof.
  unfold users_outcome.
  destruct (f !! data_file_path self); [|discriminate].
  destruct (truncated self f !! data_file_path self); [|discriminate].
  destruct (json_loads s0); [|discriminate].
  destruct (validate_user_models j) as [us'|e]; simpl.
  - by intros [= ->].
  - by destruct e.
Qed.

Lemma users_outcome_again (self : UserStatsUtils) (f : gmap string string)
    (us : list User) :
  snd (users_outcome self f) = Return us ->
  snd (users_outcome self (truncated self f)) = Return us.
Proof.
  unfold users_outcome. rewrite truncated_idem.
  destruct (f !! data_file_path self) as [t0|] eqn:E0; [|discriminate].
  destruct (truncated self f !! data_file_path self) as [txt|]; [|discriminate].
  destruct (json_loads txt); [|discriminate].
  destruct (validate_user_models j) as [us'|e]; simpl; [done|].
  by destruct e.
Qed.

Lemma users_Return (self : UserStatsUtils) (w : World) (us : list User) :
  snd (users self w) = Return us ->
  users self w = (mkWorld (truncated self (fs w)) (now_calls w), Return us).
Proof.
  rewrite users_run; simpl. intros H.
  by rewrite (users_outcome_Return _ _ _ H).
Qed.

Lemma users_again (self : UserStatsUtils) (w : World) (us : list User) (k : nat) :
  snd (users self w) = Return us ->
  users self (mkWorld (truncated self (fs w)) k) =
  (mkWorld (truncated self (fs w)) k, Return us).
Proof.
  rewrite users_run; simpl. intros H.
  rewrite (users_Return _ _ us).
  - simpl. by rewrite truncated_idem.
  - rewrite users_run; simpl. by apply users_outcome_again.
Qed.

(** ** [validate_user_models] *)

Lemma validate_loop_all (values : list RawUser) (us acc : list User) :
  Forall2 validates values us ->
  validate_loop values acc = Return (acc ++ us).
Proof.
  intros H. revert acc.
  induction H as [|r u rs us' [Hd Hi] _ IH]; intros acc; simpl.
  - by rewrite app_nil_r.
  - unfold msgspec_check. rewrite Hd, Hi, IH. by rewrite <- app_assoc.
Qed.


(** ** Claims about [users] *)

(** C3. When the text [json.load] reads from the data file does not parse,
    [users] writes the error object for "Invalid JSON file provided" to
    the output file, which then holds exactly that object, and the
    [json.JSONDecodeError] reaches the caller. The text read is the one
    the data file holds once the output file has been opened for
    writing. *)
Theorem users_invalid_json (self : UserStatsUtils) (w : World) (txt : string) :
  is_Some (fs w !! data_file_path self) ->
  <[output_file_path self := ""%string]> (fs w) !! data_file_path self = Some txt ->
  json_loads txt = None ->
  snd (users self w) = Raise JSONDecodeError /\
  fs (fst (users self w)) !! output_file_path self =
    Some (json_dumps (create_error_object "Invalid JSON file provided")).
Proof.
  intros [t0 H0] Hread Hparse.
  rewrite users_run; simpl.
  unfold users_outcome, truncated. rewrite H0, Hread, Hparse; simpl.
  split; [reflexivity|]. unfold reported. apply lookup_insert_eq.
Qed.


(** ** Claims about [user_stats] *)

(** C8. With no ages, [user_stats] returns the empty dictionary: no
    exception, no file opened, no clock read. *)
Theorem user_stats_no_users (data_path output_path : string) (w : World) :
  user_stats (mkUserStatsUtils data_path output_path []) w = (w, Return ∅).
Proof. reflexivity. Qed.

(** ** Running the bucket methods *)

Lemma bind_run {A B} (m : M A) (k : A -> M B) (w w' : World) (a : A) :
  m w = (w', Return a) -> bind m k w = k a w'.
Proof. unfold bind. by intros ->. Qed.

Lemma py_filter_run (p : Period) (us : list User) (f : gmap string string) (k : nat) :
  py_filter (fun u => user_is_offline_lt_target_period u p) us (mkWorld f k) =
  (mkWorld f (k + length us), Return (lt_kept p k us)).
Proof.
  revert k. induction us as [|u rest IH]; intros k; simpl.
  - by rewrite Nat.add_0_r.
  - unfold bind at 1. unfold user_is_offline_lt_target_period at 1.
    unfold bind at 1, datetime_now, ret at 1; simpl.
    unfold bind at 1. rewrite IH. unfold ret, offline_duration.
    rewrite Nat.add_succ_r.
    by destruct (clock k - last_login u <? timedelta_days (Period_value p)).
Qed.

Lemma gt_loop_run (us : list User) (acc : list Z) (f : gmap string string) (k : nat) :
  gt_loop us acc (mkWorld f k) =
  (mkWorld f (k + length us), Return (acc ++ gt_kept k us)).
Proof.
  revert acc k. induction us as [|u rest IH]; intros acc k; simpl.
  - by rewrite Nat.add_0_r, app_nil_r.
  - unfold bind, datetime_now, offline_duration; simpl.
    rewrite Nat.add_succ_r.
    destruct (timedelta_days (Period_value half_of_year) <? clock k - last_login u);
      rewrite IH; [|done].
    by rewrite <- app_assoc.
Qed.

Lemma bucket_avg_run (ages : list Z) (w : World) :
  (if len ages =? 0 then ret 0 else lift (py_floordiv (py_sum ages) (len ages))) w =
  (w, Return (bucket_avg ages)).
Proof.
  unfold bucket_avg, py_floordiv, lift, ret.
  by destruct (len ages =? 0).
Qed.

Lemma get_lt_run (self : UserStatsUtils) (p : Period) (w : World) (us : list User)
    (k : nat) :
  snd (users self w) = Return us ->
  get_lt_period_offline_users_avg_age self p (mkWorld (truncated self (fs w)) k) =
  (mkWorld (truncated self (fs w)) (k + length us),
   Return (bucket_avg (map age (lt_kept p k us)))).
Proof.
  intros H. unfold get_lt_period_offline_users_avg_age.
  rewrite (bind_run _ _ _ _ _ (users_again _ _ _ k H)).
  rewrite (bind_run _ _ _ _ _ (py_filter_run p us _ k)).
  cbv zeta. rewrite <- (bucket_avg_run (map age (lt_kept p k us))).
  unfold len. by rewrite length_map.
Qed.

Lemma get_gt_run (self : UserStatsUtils) (w : World) (us : list User) (k : nat) :
  snd (users self w) = Return us ->
  get_gt_half_of_year_offline_users_avg_age self (mkWorld (truncated self (fs w)) k) =
  (mkWorld (truncated self (fs w)) (k + length us),
   Return (bucket_avg (gt_kept k us))).
Proof.
  intros H. unfold get_gt_half_of_year_offline_users_avg_age.
  rewrite (bind_run _ _ _ _ _ (users_again _ _ _ k H)).
  rewrite (bind_run _ _ _ _ _ (gt_loop_run us [] _ k)).
  apply bucket_avg_run.
Qed.

(** ** Running [user_stats] *)

Lemma len_pos {A} (l : list A) : l <> [] -> 0 < len l.
Proof. destruct l; [done|]. unfold len; simpl. lia. Qed.

Lemma py_getitem_nth (l : list Z) (i : Z) :
  0 <= i < len l -> py_getitem l i = Return (nth (Z.to_nat i) l 0).
Proof.
  intros Hi. unfold py_getitem.
  assert ((i <? 0) = false) as Hneg by (apply Z.ltb_ge; lia).
  assert ((len l <=? i) = false) as Hin by (apply Z.leb_gt; lia).
  rewrite Hneg. cbv zeta iota. rewrite Hneg, Hin. simpl.
  rewrite nth_lookup.
  destruct (l !! Z.to_nat i) eqn:E; [reflexivity|].
  apply lookup_ge_None in E. unfold len in Hi. lia.
Qed.

Lemma py_getitem_last (l : list Z) :
  l <> [] -> py_getitem l (-1) = Return (nth (length l - 1) l 0).
Proof.
  intros Hl. pose proof (len_pos l Hl) as Hpos. unfold py_getitem.
  assert ((-1 + len l <? 0) = false) as Hneg by (apply Z.ltb_ge; lia).
  assert ((len l <=? -1 + len l) = false) as Hin by (apply Z.leb_gt; lia).
  change (-1 <? 0) with true. cbv zeta iota. rewrite Hneg, Hin. simpl.
  replace (Z.to_nat (-1 + len l)) with (length l - 1)%nat by (unfold len; lia).
  rewrite nth_lookup.
  destruct (l !! (length l - 1)%nat) eqn:E; [reflexivity|].
  apply lookup_ge_None in E. unfold len in Hpos. lia.
Qed.

Lemma median_run (l : list Z) (w : World) :
  l <> [] ->
  (median_age <- lift (py_getitem l (len l / 2)) ;;
   (if len l mod 2 =? 0
    then
      a <- lift (py_getitem l (len l / 2)) ;;
      b <- lift (py_getitem l (len l / 2 - 1)) ;;
      lift (py_floordiv (a + b) 2)
    else ret median_age)) w =
  (w, Return (median_age_of l)).
Proof.
  intros Hl. pose proof (len_pos l Hl) as Hpos.
  assert (0 <= len l / 2 < len l) as Hhalf.
  { split; [apply Z.div_pos; lia | apply Z.div_lt_upper_bound; lia]. }
  unfold median_age_of. cbv zeta.
  rewrite (bind_run _ _ w w _ (f_equal (pair w) (py_getitem_nth l _ Hhalf))).
  destruct (Z.eqb_spec (len l mod 2) 0) as [Heven|Hodd]; [|reflexivity].
  assert (0 <= len l / 2 - 1 < len l) as Hprev.
  { pose proof (Z.div_mod (len l) 2 ltac:(lia)) as Hdm. lia. }
  rewrite (bind_run _ _ w w _ (f_equal (pair w) (py_getitem_nth l _ Hhalf))).
  rewrite (bind_run _ _ w w _ (f_equal (pair w) (py_getitem_nth l _ Hprev))).
  reflexivity.
Qed.

Lemma user_stats_run (self : UserStatsUtils) (w : World) (us : list User) :
  all_ages self <> [] ->
  snd (users self w) = Return us ->
  user_stats self w =
  (mkWorld (truncated self (fs w)) (now_calls w + 5 * length us),
   Return (stats_of (all_ages self) us (now_calls w))).
Proof.
  intros Hl Hus. pose proof (len_pos _ Hl) as Hpos.
  unfold user_stats. cbv zeta.
  destruct (Z.eqb_spec (len (all_ages self)) 0) as [E|_]; [lia|].
  unfold bind at 1. unfold lift at 1, py_floordiv at 1.
  change (2 =? 0) with false. cbv iota beta.
  unfold bind at 1. unfold bind at 1.
  pose proof (median_run (all_ages self) w Hl) as Hmed.
  unfold bind at 1 in Hmed.
  destruct (lift (py_getitem (all_ages self) (len (all_ages self) / 2)) w)
    as [w0 [m0|e0]] eqn:E0; [|discriminate].
  rewrite Hmed.
  rewrite (bind_run _ _ w w _ (f_equal (pair w) (py_getitem_last _ Hl))).
  rewrite (bind_run _ _ w w _ (f_equal (pair w) (py_getitem_nth (all_ages self) 0 (conj (Z.le_refl 0) Hpos)))).
  unfold bind at 1. unfold lift at 1, py_floordiv at 1.
  destruct (Z.eqb_spec (len (all_ages self)) 0) as [E|_]; [lia|].
  unfold bind at 1. unfold get_lt_period_offline_users_avg_age at 1.
  rewrite (bind_run _ _ _ _ _ (users_Return _ _ _ Hus)).
  rewrite (bind_run _ _ _ _ _ (py_filter_run two_days us _ _)).
  cbv zeta.
  replace (len (lt_kept two_days (now_calls w) us))
    with (len (map age (lt_kept two_days (now_calls w) us)))
    by (unfold len; by rewrite length_map).
  rewrite bucket_avg_run.
  rewrite (bind_run _ _ _ _ _ (get_lt_run self week w us _ Hus)).
  rewrite (bind_run _ _ _ _ _ (get_lt_run self month w us _ Hus)).
  rewrite (bind_run _ _ _ _ _ (get_lt_run self half_of_year w us _ Hus)).
  rewrite (bind_run _ _ _ _ _ (get_gt_run self w us _ Hus)).
  unfold ret, stats_of. cbv zeta.
  replace (now_calls w + length us + length us + length us + length us + length us)%nat
    with (now_calls w + 5 * length us)%nat by lia.
  replace (now_calls w + length us + length us)%nat
    with (now_calls w + 2 * length us)%nat by lia.
  replace (now_calls w + 2 * length us + length us)%nat
    with (now_calls w + 3 * length us)%nat by lia.
  replace (now_calls w + 3 * length us + length us)%nat
    with (now_calls w + 4 * length us)%nat by lia.
  reflexivity.
Qed.

(** ** Buckets *)

Lemma readings_cons (k : nat) (u : User) (us : list User) :
  readings k (u :: us) = (k, u) :: readings (S k) us.
Proof. reflexivity. Qed.

Lemma lt_kept_bucket (p : Period) (k : nat) (us : list User) :
  lt_kept p k us = lt_bucket p k us.
Proof.
  revert k. induction us as [|u rest IH]; intros k; [reflexivity|].
  unfold lt_bucket. rewrite readings_cons. simpl.
  unfold offline_duration, timedelta_days.
  destruct (clock k - last_login u <? Period_value p * microseconds_per_day);
    simpl; rewrite IH; reflexivity.
Qed.

Lemma gt_kept_bucket (k : nat) (us : list User) :
  gt_kept k us = map age (gt_bucket k us).
Proof.
  revert k. induction us as [|u rest IH]; intros k; [reflexivity|].
  unfold gt_bucket. rewrite readings_cons. simpl.
  unfold offline_duration, timedelta_days.
  destruct (Period_value half_of_year * microseconds_per_day <? clock k - last_login u);
    simpl; rewrite IH; reflexivity.
Qed.

Lemma bucket_avg_floor (ages : list Z) :
  ages <> [] -> is_floor_div (py_sum ages) (len ages) (bucket_avg ages).
Proof.
  intros H. pose proof (len_pos ages H) as Hpos.
  unfold bucket_avg, is_floor_div.
  destruct (Z.eqb_spec (len ages) 0); [lia|].
  pose proof (Z.div_mod (py_sum ages) (len ages) ltac:(lia)) as Hdm.
  pose proof (Z.mod_pos_bound (py_sum ages) (len ages) Hpos). lia.
Qed.

(** ** Reading the dictionary *)

Section Keys.
Variables mx mn avg med a b c d e : Z.

Lemma stats_max_age : stats_dict mx mn avg med a b c d e !! "max_age"%string = Some mx.
Proof. reflexivity. Qed.

Lemma stats_min_age : stats_dict mx mn avg med a b c d e !! "min_age"%string = Some mn.
Proof. reflexivity. Qed.

Lemma stats_avg_age : stats_dict mx mn avg med a b c d e !! "avg_age"%string = Some avg.
Proof. reflexivity. Qed.

Lemma stats_median_age :
  stats_dict mx mn avg med a b c d e !! "median_age"%string = Some med.
Proof. reflexivity. Qed.

Lemma stats_lt_two_days :
  stats_dict mx mn avg med a b c d e
    !! "lt_two_days_offline_users_average_age"%string = Some a.
Proof. reflexivity. Qed.

Lemma stats_lt_week :
  stats_dict mx mn avg med a b c d e
    !! "lt_week_offline_users_average_age"%string = Some b.
Proof. reflexivity. Qed.

Lemma stats_lt_month :
  stats_dict mx mn avg med a b c d e
    !! "lt_month_offline_users_average_age"%string = Some c.
Proof. reflexivity. Qed.

Lemma stats_lt_half_of_year :
  stats_dict mx mn avg med a b c d e
    !! "lt_half_of_year_offline_users_average_age"%string = Some d.
Proof. reflexivity. Qed.

Lemma stats_gt_half_of_year :
  stats_dict mx mn avg med a b c d e
    !! "gt_half_of_year_offline_users_average_age"%string = Some e.
Proof. reflexivity. Qed.
End Keys.

(** ** Ages in ascending order *)

Lemma sorted_head_least (l : list Z) :
  Sorted Z.le l -> Forall (fun x => nth 0 l 0 <= x) l.
Proof.
  intros H. apply Sorted_StronglySorted in H; [|intros x y z; lia].
  destruct H as [|x l' _ Hall]; [constructor|]. simpl.
  constructor; [lia|exact Hall].
Qed.

Lemma sorted_last_greatest (l : list Z) :
  Sorted Z.le l -> Forall (fun x => x <= nth (length l - 1) l 0) l.
Proof.
  intros H. apply Sorted_StronglySorted in H; [|intros x y z; lia].
  induction H as [|x l' Hs IH Hall]; [constructor|].
  destruct l' as [|y l'']; [repeat constructor; simpl; lia|].
  assert (nth (length (x :: y :: l'') - 1) (x :: y :: l'') 0 =
          nth (length (y :: l'') - 1) (y :: l'') 0) as ->.
  { simpl. by rewrite Nat.sub_0_r. }
  constructor; [|exact IH].
  assert (In (nth (length (y :: l'') - 1) (y :: l'') 0) (y :: l'')) as Hin.
  { apply nth_In. simpl. lia. }
  rewrite Forall_forall in Hall. apply list_elem_of_In in Hin. by apply Hall.
Qed.

(** ** Claims about the age statistics *)

(** C1 (amended). For non-empty [all_ages], when [users] can be read,
    [user_stats] returns a dictionary in which 'min_age' is the first and
    'max_age' the last element of [all_ages]; when [all_ages] is in
    ascending order these are its minimum and its maximum. *)
Theorem user_stats_min_max (self : UserStatsUtils) (w : World) (us : list User) :
  all_ages self <> [] ->
  snd (users self w) = Return us ->
  exists (d : gmap string Z) (mn mx : Z),
    snd (user_stats self w) = Return d /\
    d !! "min_age"%string = Some mn /\
    d !! "max_age"%string = Some mx /\
    all_ages self !! 0%nat = Some mn /\
    all_ages self !! (length (all_ages self) - 1)%nat = Some mx /\
    (Sorted Z.le (all_ages self) ->
     Forall (fun x => mn <= x) (all_ages self) /\
     Forall (fun x => x <= mx) (all_ages self)).
Proof.
  intros Hl Hus. rewrite (user_stats_run self w us Hl Hus). cbn [snd].
  unfold stats_of. eexists _, _, _. split; [reflexivity|].
  split; [apply stats_min_age|]. split; [apply stats_max_age|].
  pose proof (len_pos _ Hl) as Hpos. unfold len in Hpos.
  split; [|split].
  - rewrite nth_lookup.
    destruct (all_ages self !! 0%nat) eqn:E; [reflexivity|].
    apply lookup_ge_None in E. lia.
  - rewrite nth_lookup.
    destruct (all_ages self !! (length (all_ages self) - 1)%nat) eqn:E; [reflexivity|].
    apply lookup_ge_None in E. lia.
  - intros Hs. split; [by apply sorted_head_least | by apply sorted_last_greatest].
Qed.

Lemma insert_ascending_head (x : Z) (l : list Z) :
  Sorted Z.le l -> HdRel Z.le x l -> insert_ascending x l = x :: l.
Proof.
  intros _ Hhd. destruct l as [|y rest]; [reflexivity|]. simpl.
  apply HdRel_inv in Hhd. apply Z.leb_le in Hhd. by rewrite Hhd.
Qed.

Lemma ascending_sorted_id (l : list Z) : Sorted Z.le l -> ascending l = l.
Proof.
  induction 1 as [|x l Hs IH Hhd]; [reflexivity|]. simpl.
  rewrite IH. by apply insert_ascending_head.
Qed.

Lemma insert_ascending_Sorted (x : Z) (l : list Z) :
  Sorted Z.le l -> Sorted Z.le (insert_ascending x l).
Proof.
  induction 1 as [|y rest Hs IH Hhd]; simpl; [repeat constructor|].
  destruct (Z.leb_spec x y) as [Hxy|Hxy].
  - repeat constructor; assumption.
  - constructor; [exact IH|].
    destruct rest as [|z rest']; simpl.
    + constructor. lia.
    + apply HdRel_inv in Hhd.
      destruct (x <=? z); constructor; lia.
Qed.

Lemma ascending_Sorted (l : list Z) : Sorted Z.le (ascending l).
Proof.
  induction l as [|x rest IH]; simpl; [constructor|].
  by apply insert_ascending_Sorted.
Qed.

Lemma insert_ascending_Permutation (x : Z) (l : list Z) :
  Permutation (x :: l) (insert_ascending x l).
Proof.
  induction l as [|y rest IH]; simpl; [reflexivity|].
  destruct (x <=? y); [reflexivity|].
  rewrite <- IH. apply perm_swap.
Qed.

Lemma ascending_Permutation (l : list Z) : Permutation l (ascending l).
Proof.
  induction l as [|x rest IH]; simpl; [reflexivity|].
  rewrite <- insert_ascending_Permutation. by constructor.
Qed.

(** On a list already in ascending order, the positional median of the
    property is the median. *)
Lemma median_age_of_sorted (l : list Z) :
  l <> [] -> Sorted Z.le l -> median_age_of l = spec_median l.
Proof.
  intros Hl Hs. pose proof (len_pos l Hl) as Hpos.
  unfold spec_median, median_age_of. cbv zeta.
  rewrite (ascending_sorted_id l Hs). unfold len in *.
  destruct (Nat.even (length l)) eqn:E.
  - apply Nat.even_spec in E. destruct E as [k Hk].
    assert (Z.of_nat (length l) = 2 * Z.of_nat k) as EZ by lia.
    rewrite EZ.
    replace ((2 * Z.of_nat k) mod 2) with 0
      by (apply Z.mod_unique with (q := Z.of_nat k); lia).
    replace (2 * Z.of_nat k / 2) with (Z.of_nat k)
      by (apply Z.div_unique with (r := 0); lia).
    change (0 =? 0) with true. cbv iota.
    replace (length l / 2)%nat with k
      by (apply Nat.div_unique with (r := 0%nat); lia).
    replace (Z.to_nat (Z.of_nat k)) with k by lia.
    replace (Z.to_nat (Z.of_nat k - 1)) with (k - 1)%nat by lia.
    f_equal. lia.
  - rewrite <- Nat.negb_odd in E. apply negb_false_iff, Nat.odd_spec in E.
    destruct E as [k Hk].
    assert (Z.of_nat (length l) = 2 * Z.of_nat k + 1) as EZ by lia.
    rewrite EZ.
    replace ((2 * Z.of_nat k + 1) mod 2) with 1
      by (apply Z.mod_unique with (q := Z.of_nat k); lia).
    replace ((2 * Z.of_nat k + 1) / 2) with (Z.of_nat k)
      by (apply Z.div_unique with (r := 1); lia).
    change (1 =? 0) with false. cbv iota.
    replace (length l / 2)%nat with k
      by (apply Nat.div_unique with (r := 1%nat); lia).
    by rewrite Nat2Z.id.
Qed.

(** C2 (amended). For non-empty [all_ages], when [users] can be read,
    [user_stats] maps 'median_age' to the element in the middle position
    when the count is odd, and to the floor of half the sum of the elements
    in the two middle positions when it is even; when [all_ages] is in
    ascending order this is the median of [all_ages]. *)
Theorem user_stats_median (self : UserStatsUtils) (w : World) (us : list User) :
  all_ages self <> [] ->
  snd (users self w) = Return us ->
  exists (d : gmap string Z) (med : Z),
    snd (user_stats self w) = Return d /\
    d !! "median_age"%string = Some med /\
    (forall (k : nat) (x : Z),
        length (all_ages self) = (2 * k + 1)%nat ->
        all_ages self !! k = Some x ->
        med = x) /\
    (forall (k : nat) (x y : Z),
        length (all_ages self) = (2 * k + 2)%nat ->
        all_ages self !! k = Some x ->
        all_ages self !! (k + 1)%nat = Some y ->
        is_floor_div (x + y) 2 med) /\
    (Sorted Z.le (all_ages self) -> med = spec_median (all_ages self)).
Proof.
  intros Hl Hus. rewrite (user_stats_run self w us Hl Hus). cbn [snd].
  unfold stats_of. eexists _, _. split; [reflexivity|]. split; [apply stats_median_age|].
  split; [|split]; [unfold median_age_of; cbv zeta | unfold median_age_of; cbv zeta |].
  - intros k x Hlen Hk.
    assert (len (all_ages self) = 2 * Z.of_nat k + 1) as E by (unfold len; lia).
    rewrite E.
    replace ((2 * Z.of_nat k + 1) mod 2) with 1
      by (apply Z.mod_unique with (q := Z.of_nat k); lia).
    replace ((2 * Z.of_nat k + 1) / 2) with (Z.of_nat k)
      by (apply Z.div_unique with (r := 1); lia).
    simpl. rewrite Nat2Z.id, nth_lookup, Hk. reflexivity.
  - intros k x y Hlen Hx Hy.
    assert (len (all_ages self) = 2 * (Z.of_nat k + 1)) as E by (unfold len; lia).
    rewrite E.
    replace ((2 * (Z.of_nat k + 1)) mod 2) with 0
      by (apply Z.mod_unique with (q := Z.of_nat k + 1); lia).
    replace (2 * (Z.of_nat k + 1) / 2) with (Z.of_nat k + 1)
      by (apply Z.div_unique with (r := 0); lia).
    simpl.
    replace (Z.to_nat (Z.of_nat k + 1)) with (k + 1)%nat by lia.
    replace (Z.to_nat (Z.of_nat k + 1 - 1)) with k by lia.
    rewrite !nth_lookup, Hx, Hy. simpl.
    unfold is_floor_div.
    pose proof (Z.div_mod (y + x) 2 ltac:(lia)) as Hdm.
    pose proof (Z.mod_pos_bound (y + x) 2 ltac:(lia)). lia.
  - intros Hs. by apply median_age_of_sorted.
Qed.

(** ** The bucket methods from any world *)

Lemma get_lt_run0 (self : UserStatsUtils) (p : Period) (w : World) (us : list User) :
  snd (users self w) = Return us ->
  get_lt_period_offline_users_avg_age self p w =
  (mkWorld (truncated self (fs w)) (now_calls w + length us),
   Return (bucket_avg (map age (lt_bucket p (now_calls w) us)))).
Proof.
  intros H. unfold get_lt_period_offline_users_avg_age.
  rewrite (bind_run _ _ _ _ _ (users_Return _ _ _ H)).
  rewrite (bind_run _ _ _ _ _ (py_filter_run p us _ _)).
  cbv zeta. rewrite <- lt_kept_bucket.
  rewrite <- (bucket_avg_run (map age (lt_kept p (now_calls w) us))).
  unfold len. by rewrite length_map.
Qed.

Lemma get_gt_run0 (self : UserStatsUtils) (w : World) (us : list User) :
  snd (users self w) = Return us ->
  get_gt_half_of_year_offline_users_avg_age self w =
  (mkWorld (truncated self (fs w)) (now_calls w + length us),
   Return (bucket_avg (map age (gt_bucket (now_calls w) us)))).
Proof.
  intros H. unfold get_gt_half_of_year_offline_users_avg_age.
  rewrite (bind_run _ _ _ _ _ (users_Return _ _ _ H)).
  rewrite (bind_run _ _ _ _ _ (gt_loop_run us [] _ _)).
  simpl app. rewrite <- gt_kept_bucket. apply bucket_avg_run.
Qed.

Lemma bind_raise {A B} (m : M A) (k : A -> M B) (w : World) (e : exn) :
  snd (m w) = Raise e -> snd (bind m k w) = Raise e.
Proof.
  unfold bind. destruct (m w) as [w' [a|e']]; cbn [snd]; intros H;
    [discriminate | by injection H as ->].
Qed.

Lemma validate_loop_no_zero_division (values : list RawUser) (acc : list User) :
  validate_loop values acc <> Raise ZeroDivisionError.
Proof.
  revert acc. induction values as [|r rest IH]; intros acc; simpl; [discriminate|].
  unfold msgspec_check.
  destruct (msgspec_json_decode (get_valid_dict_to_str r)); try discriminate.
  destruct (User_init r); [apply IH | discriminate].
Qed.

Lemma users_no_zero_division (self : UserStatsUtils) (w : World) :
  snd (users self w) <> Raise ZeroDivisionError.
Proof.
  rewrite users_run; simpl. unfold users_outcome.
  destruct (fs w !! data_file_path self); [|discriminate].
  destruct (truncated self (fs w) !! data_file_path self); [|discriminate].
  destruct (json_loads s0) as [j|]; [|discriminate].
  destruct (validate_user_models j) as [us|e] eqn:E; [discriminate|].
  assert (e <> ZeroDivisionError) as He.
  { intros ->. destruct j; simpl in E; [|discriminate].
    by apply validate_loop_no_zero_division in E. }
  by destruct e.
Qed.

Lemma stats_of_bucket_floor (ages : list Z) (d : gmap string Z) (key : string) :
  d !! key = Some (bucket_avg ages) -> holds_floor_avg d key ages.
Proof. intros H. exists (bucket_avg ages). split; [exact H | apply bucket_avg_floor]. Qed.

(** ** Claims about the averages and the buckets *)

(** C5. For non-empty [all_ages], when [users] can be read, [user_stats]
    maps 'avg_age' to the floor of the sum of [all_ages] over their number,
    and each of the five bucket keys to the floor of the sum of the ages of
    the bucket's users over the size of the bucket, for every bucket that
    has users. The five buckets are filled one after the other, each
    reading the clock once for every user. *)
Theorem user_stats_averages (self : UserStatsUtils) (w : World) (us : list User) :
  all_ages self <> [] ->
  snd (users self w) = Return us ->
  exists (d : gmap string Z) (avg : Z),
    snd (user_stats self w) = Return d /\
    d !! "avg_age"%string = Some avg /\
    is_floor_div (py_sum (all_ages self)) (len (all_ages self)) avg /\
    holds_floor_avg d "lt_two_days_offline_users_average_age"
      (map age (lt_bucket two_days (now_calls w) us)) /\
    holds_floor_avg d "lt_week_offline_users_average_age"
      (map age (lt_bucket week (now_calls w + length us) us)) /\
    holds_floor_avg d "lt_month_offline_users_average_age"
      (map age (lt_bucket month (now_calls w + 2 * length us) us)) /\
    holds_floor_avg d "lt_half_of_year_offline_users_average_age"
      (map age (lt_bucket half_of_year (now_calls w + 3 * length us) us)) /\
    holds_floor_avg d "gt_half_of_year_offline_users_average_age"
      (map age (gt_bucket (now_calls w + 4 * length us) us)).
Proof.
  intros Hl Hus. rewrite (user_stats_run self w us Hl Hus). cbn [snd].
  unfold stats_of. cbv zeta. eexists _, _.
  split; [reflexivity|]. split; [apply stats_avg_age|].
  pose proof (len_pos _ Hl) as Hpos.
  split.
  { unfold is_floor_div.
    pose proof (Z.div_mod (py_sum (all_ages self)) (len (all_ages self)) ltac:(lia)).
    pose proof (Z.mod_pos_bound (py_sum (all_ages self)) (len (all_ages self)) Hpos).
    lia. }
  rewrite !lt_kept_bucket, gt_kept_bucket.
  repeat split; apply stats_of_bucket_floor.
  - apply stats_lt_two_days.
  - apply stats_lt_week.
  - apply stats_lt_month.
  - apply stats_lt_half_of_year.
  - apply stats_gt_half_of_year.
Qed.

(** C6. [user_is_offline_lt_target_period] reads the clock once and answers
    true exactly when the reading minus the user's last login is strictly
    less than the period in days; [get_lt_period_offline_users_avg_age]
    returns the average age (0 when there is none) of the users for which
    this holds, each at the reading it is compared at. *)
Theorem lt_period_bucket (self : UserStatsUtils) (p : Period) (w : World)
    (us : list User) :
  snd (users self w) = Return us ->
  (forall (u : User) (w0 : World),
      exists b : bool,
        user_is_offline_lt_target_period u p w0 =
          (mkWorld (fs w0) (S (now_calls w0)), Return b) /\
        (b = true <->
         clock (now_calls w0) - last_login u < Period_value p * microseconds_per_day)) /\
  snd (get_lt_period_offline_users_avg_age self p w) =
    Return (bucket_avg (map age (lt_bucket p (now_calls w) us))) /\
  (forall (i : nat) (u : User),
      In (i, u) (readings (now_calls w) us) ->
      (In (i, u)
         (List.filter
            (fun iu : nat * User =>
               clock (fst iu) - last_login (snd iu)
                 <? Period_value p * microseconds_per_day)
            (readings (now_calls w) us)) <->
       clock i - last_login u < Period_value p * microseconds_per_day)).
Proof.
  intros Hus. split; [|split].
  - intros u w0. eexists. split; [reflexivity|].
    unfold timedelta_days. apply Z.ltb_lt.
  - by rewrite (get_lt_run0 self p w us Hus).
  - intros i u Hin. rewrite filter_In. simpl. rewrite Z.ltb_lt. tauto.
Qed.

(** C7. [get_gt_half_of_year_offline_users_avg_age] returns the average age
    (0 when there is none) of the users whose offline duration, the clock
    reading minus the last login, is strictly greater than the half-of-year
    period in days, each at the reading it is compared at. *)
Theorem gt_half_of_year_bucket (self : UserStatsUtils) (w : World) (us : list User) :
  snd (users self w) = Return us ->
  snd (get_gt_half_of_year_offline_users_avg_age self w) =
    Return (bucket_avg (map age (gt_bucket (now_calls w) us))) /\
  (forall (i : nat) (u : User),
      In (i, u) (readings (now_calls w) us) ->
      (In (i, u)
         (List.filter
            (fun iu : nat * User =>
               Period_value half_of_year * microseconds_per_day
                 <? clock (fst iu) - last_login (snd iu))
            (readings (now_calls w) us)) <->
       Period_value half_of_year * microseconds_per_day < clock i - last_login u)).
Proof.
  intros Hus. split.
  - by rewrite (get_gt_run0 self w us Hus).
  - intros i u Hin. rewrite filter_In. simpl. rewrite Z.ltb_lt. tauto.
Qed.

(** C9. Neither bucket method can raise [ZeroDivisionError], whatever the
    files hold; when [users] can be read and no user falls in the bucket,
    the method returns 0. *)
Theorem buckets_never_divide_by_zero (self : UserStatsUtils) (p : Period) (w : World) :
  snd (get_lt_period_offline_users_avg_age self p w) <> Raise ZeroDivisionError /\
  snd (get_gt_half_of_year_offline_users_avg_age self w) <> Raise ZeroDivisionError /\
  (forall us : list User,
      snd (users self w) = Return us ->
      lt_bucket p (now_calls w) us = [] ->
      snd (get_lt_period_offline_users_avg_age self p w) = Return 0) /\
  (forall us : list User,
      snd (users self w) = Return us ->
      gt_bucket (now_calls w) us = [] ->
      snd (get_gt_half_of_year_offline_users_avg_age self w) = Return 0).
Proof.
  pose proof (users_no_zero_division self w) as Hno.
  split; [|split; [|split]].
  - destruct (snd (users self w)) as [us|e] eqn:E.
    + by rewrite (get_lt_run0 self p w us E).
    + unfold get_lt_period_offline_users_avg_age.
      rewrite (bind_raise _ _ _ _ E). congruence.
  - destruct (snd (users self w)) as [us|e] eqn:E.
    + by rewrite (get_gt_run0 self w us E).
    + unfold get_gt_half_of_year_offline_users_avg_age.
      rewrite (bind_raise _ _ _ _ E). congruence.
  - intros us Hus Hempty. rewrite (get_lt_run0 self p w us Hus), Hempty. reflexivity.
  - intros us Hus Hempty. rewrite (get_gt_run0 self w us Hus), Hempty. reflexivity.
Qed.

(** C10. A user whose offline duration is exactly the half-of-year period
    is in neither bucket: the less-than test answers false, and the loop of
    the greater-than method passes over the user without appending an
    age. *)
Theorem exactly_half_of_year_in_neither (u : User) (w : World)
    (rest : list User) (acc : list Z) :
  clock (now_calls w) - last_login u = Period_value half_of_year * microseconds_per_day ->
  user_is_offline_lt_target_period u half_of_year w =
    (mkWorld (fs w) (S (now_calls w)), Return false) /\
  gt_loop (u :: rest) acc w = gt_loop rest acc (mkWorld (fs w) (S (now_calls w))) /\
  lt_bucket half_of_year (now_calls w) (u :: rest) =
    lt_bucket half_of_year (S (now_calls w)) rest /\
  gt_bucket (now_calls w) (u :: rest) = gt_bucket (S (now_calls w)) rest.
Proof.
  intros H. split; [|split; [|split]].
  - unfold user_is_offline_lt_target_period, bind, datetime_now, ret, timedelta_days.
    rewrite H, Z.ltb_irrefl. reflexivity.
  - simpl. unfold bind at 1. unfold datetime_now, timedelta_days.
    rewrite H, Z.ltb_irrefl. reflexivity.
  - unfold lt_bucket. rewrite readings_cons. simpl.
    rewrite H, Z.ltb_irrefl. reflexivity.
  - unfold gt_bucket. rewrite readings_cons. simpl.
    rewrite H, Z.ltb_irrefl. reflexivity.
Qed.

(** ** More about [users]: files *)

Lemma users_outcome_insert (self : UserStatsUtils) (f : gmap string string) (x : string) :
  is_Some (f !! data_file_path self) ->
  users_outcome self (<[output_file_path self := x]> f) = users_outcome self f.
Proof.
  intros [t0 H0]. unfold users_outcome, truncated, reported.
  rewrite !insert_insert_eq, H0.
  destruct (decide (output_file_path self = data_file_path self)) as [E|E].
  - rewrite E, !lookup_insert_eq. reflexivity.
  - rewrite (lookup_insert_ne f _ _ x E), H0. reflexivity.
Qed.

Lemma validate_loop_raises (values : list RawUser) (acc : list User) (e : exn) :
  validate_loop values acc = Raise e ->
  e = ValidationError \/ e = MsgspecDecodeError \/ e = TypeError.
Proof.
  revert acc. induction values as [|r rest IH]; intros acc; simpl; [discriminate|].
  unfold msgspec_check.
  destruct (msgspec_json_decode (get_valid_dict_to_str r)).
  - destruct (User_init r); [apply IH|]. intros [= <-]. tauto.
  - intros [= <-]. tauto.
  - intros [= <-]. tauto.
Qed.

Lemma validate_user_models_raises (j : JSON RawUser) (e : exn) :
  validate_user_models j = Raise e ->
  e = ValidationError \/ e = MsgspecDecodeError \/ e = TypeError \/ e = AttributeError.
Proof.
  destruct j as [items|]; simpl.
  - intros H. apply validate_loop_raises in H. tauto.
  - intros [= <-]. tauto.
Qed.

Lemma users_outcome_store (self : UserStatsUtils) (f : gmap string string) :
  is_Some (f !! data_file_path self) ->
  fst (users_outcome self f) =
    <[output_file_path self := output_after (snd (users_outcome self f))]> f.
Proof.
  intros [t0 H0]. unfold users_outcome, truncated, reported. rewrite H0.
  destruct (<[output_file_path self:=""%string]> f !! data_file_path self) as [txt|] eqn:E.
  - destruct (json_loads txt) as [j|]; [|reflexivity].
    destruct (validate_user_models j) as [us|e] eqn:Hv; [reflexivity|].
    apply validate_user_models_raises in Hv.
    destruct Hv as [->|[->|[->| ->]]]; reflexivity.
  - exfalso. destruct (decide (output_file_path self = data_file_path self)) as [Ep|Ep].
    + rewrite Ep, lookup_insert_eq in E. discriminate.
    + rewrite lookup_insert_ne, H0 in E by exact Ep. discriminate.
Qed.

(** X1. Without a data file [users] raises [FileNotFoundError] before the
    output file is opened: the files are left as they were. *)
Theorem users_missing_data_file (self : UserStatsUtils) (w : World) :
  fs w !! data_file_path self = None ->
  users self w = (w, Raise FileNotFoundError).
Proof.
  intros H. rewrite users_run. unfold users_outcome. rewrite H. by destruct w.
Qed.

Lemma users_opened (self : UserStatsUtils) (w : World) :
  snd (users self w) <> Raise FileNotFoundError ->
  is_Some (fs w !! data_file_path self).
Proof.
  intros H. destruct (fs w !! data_file_path self) as [t0|] eqn:E; [eauto|].
  exfalso. apply H. rewrite users_run. unfold users_outcome. by rewrite E.
Qed.

(** X2. Whenever [users] returns, or raises an exception that does not come
    from opening the files ([FileNotFoundError]), it leaves in the output
    file the error object of the failure when that is a JSON syntax error or
    a schema rejection, and the empty text otherwise (success, or any other
    exception); what the file held before is lost, no other file changes and
    the clock is not read. *)
Theorem users_file_effects (self : UserStatsUtils) (w : World) :
  snd (users self w) <> Raise FileNotFoundError ->
  fs (fst (users self w)) !! output_file_path self =
    Some (output_after (snd (users self w))) /\
  (forall path : string,
      path <> output_file_path self ->
      fs (fst (users self w)) !! path = fs w !! path) /\
  now_calls (fst (users self w)) = now_calls w.
Proof.
  intros Hopened. apply users_opened in Hopened as H.
  rewrite users_run. cbn [fst snd fs now_calls].
  rewrite (users_outcome_store self (fs w) H).
  split; [apply lookup_insert_eq|]. split; [|reflexivity].
  intros path Hne. by apply lookup_insert_ne.
Qed.

(** X3. A data file that parses to something other than a mapping makes
    [users] raise [AttributeError]; no error object is written, the output
    file is left empty. *)
Theorem users_non_mapping (self : UserStatsUtils) (w : World) (txt : string) :
  is_Some (fs w !! data_file_path self) ->
  <[output_file_path self := ""%string]> (fs w) !! data_file_path self = Some txt ->
  json_loads txt = Some JOther ->
  snd (users self w) = Raise AttributeError /\
  fs (fst (users self w)) !! output_file_path self = Some ""%string.
Proof.
  intros [t0 H0] Hread Hparse. rewrite users_run. cbn [fst snd fs].
  unfold users_outcome, truncated. rewrite H0, Hread, Hparse. cbn.
  split; [reflexivity | apply lookup_insert_eq].
Qed.

(** X4. Reading [users] again, in the world the first reading left, gives
    the same outcome and the same world: every call opens and parses the
    data file afresh, and rewrites the output file to the same content. *)
Theorem users_idempotent (self : UserStatsUtils) (w : World) :
  users self (fst (users self w)) = users self w.
Proof.
  rewrite !users_run. cbn [fst snd fs now_calls].
  destruct (fs w !! data_file_path self) as [t0|] eqn:H0.
  - rewrite (users_outcome_store self (fs w)) by eauto.
    rewrite users_outcome_insert by eauto.
    rewrite (users_outcome_store self (fs w)) by eauto. reflexivity.
  - assert (users_outcome self (fs w) = (fs w, Raise FileNotFoundError)) as E.
    { unfold users_outcome. by rewrite H0. }
    rewrite E. cbn [fst snd]. rewrite E. reflexivity.
Qed.

(** X5. When the data file and the output file are the same file, opening
    it for writing empties it before [json.load] reads it: [users] sees the
    empty text, whatever the file held. With a parser that rejects the empty
    text the outcome is [JSONDecodeError], and the file ends up holding the
    error object instead of the data. *)
Theorem users_same_file (self : UserStatsUtils) (w : World) :
  data_file_path self = output_file_path self ->
  is_Some (fs w !! data_file_path self) ->
  json_loads ""%string = None ->
  snd (users self w) = Raise JSONDecodeError /\
  fs (fst (users self w)) !! data_file_path self =
    Some (json_dumps (create_error_object "Invalid JSON file provided")).
Proof.
  intros Hsame [t0 H0] Hparse. rewrite users_run. cbn [fst snd fs].
  unfold users_outcome, truncated, reported. rewrite H0.
  rewrite <- Hsame, lookup_insert_eq, Hparse. cbn.
  split; [reflexivity | apply lookup_insert_eq].
Qed.

(** ** More about [validate_user_models] *)

Lemma validate_loop_Return (values : list RawUser) (acc us : list User) :
  validate_loop values acc = Return us ->
  exists models : list User, us = acc ++ models /\ Forall2 validates values models.
Proof.
  revert acc. induction values as [|r rest IH]; intros acc; simpl.
  - intros [= <-]. exists []. split; [by rewrite app_nil_r | constructor].
  - unfold msgspec_check.
    destruct (msgspec_json_decode (get_valid_dict_to_str r)) eqn:Hd; try discriminate.
    destruct (User_init r) as [u|] eqn:Hi; [|discriminate].
    intros H. destruct (IH _ H) as (models & -> & Hall).
    exists (u :: models). split; [by rewrite <- app_assoc|].
    constructor; [by split | exact Hall].
Qed.

Lemma validate_loop_skip (values : list RawUser) (us : list User) :
  Forall2 validates values us ->
  forall (rest : list RawUser) (acc : list User),
    validate_loop (values ++ rest) acc = validate_loop rest (acc ++ us).
Proof.
  induction 1 as [|r u rs us' [Hd Hi] _ IH]; intros rest acc; simpl.
  - by rewrite app_nil_r.
  - unfold msgspec_check. rewrite Hd, Hi, IH. by rewrite <- app_assoc.
Qed.

(** X6. [validate_user_models] returns a list exactly when every record of
    the mapping decodes against the schema and yields a model, and the list
    is then these models, in the order of the mapping. *)
Theorem validate_user_models_returns (items : list (string * RawUser)) (us : list User) :
  validate_user_models (JObject items) = Return us <->
  Forall2 validates (map snd items) us.
Proof.
  simpl. split.
  - intros H. destruct (validate_loop_Return _ _ _ H) as (models & -> & Hall).
    exact Hall.
  - intros H. by rewrite (validate_loop_all _ us).
Qed.

(** X7. The loop stops at the first record that does not pass, and that
    record alone decides the exception: [ValidationError] when the schema
    rejects it, msgspec's [DecodeError] when its text is malformed,
    [TypeError] when it decodes but the model cannot be built. The records
    after it are not looked at. *)
Theorem validate_user_models_first_failure
    (pre post : list (string * RawUser)) (name : string) (bad : RawUser)
    (us : list User) :
  Forall2 validates (map snd pre) us ->
  validate_user_models (JObject (pre ++ (name, bad) :: post)) =
    match msgspec_json_decode (get_valid_dict_to_str bad) with
    | Invalid => Raise ValidationError
    | Malformed => Raise MsgspecDecodeError
    | Decoded =>
        match User_init bad with
        | None => Raise TypeError
        | Some u => validate_loop (map snd post) (us ++ [u])
        end
    end.
Proof.
  intros H. simpl. rewrite map_app. simpl.
  rewrite (validate_loop_skip _ us) by exact H. simpl. unfold msgspec_check.
  destruct (msgspec_json_decode (get_valid_dict_to_str bad)); reflexivity.
Qed.

(** ** More about [user_stats]: failures, keys, effects *)

Lemma bind_raise_run {A B} (m : M A) (k : A -> M B) (w w' : World) (e : exn) :
  m w = (w', Raise e) -> bind m k w = (w', Raise e).
Proof. unfold bind. by intros ->. Qed.

Lemma users_raises (self : UserStatsUtils) (w : World) (e : exn) :
  snd (users self w) = Raise e ->
  e = FileNotFoundError \/ e = JSONDecodeError \/ e = ValidationError \/
  e = MsgspecDecodeError \/ e = TypeError \/ e = AttributeError.
Proof.
  rewrite users_run. cbn [snd]. unfold users_outcome.
  destruct (fs w !! data_file_path self); [|intros [= <-]; tauto].
  destruct (truncated self (fs w) !! data_file_path self); [|intros [= <-]; tauto].
  destruct (json_loads s0) as [j|]; [|intros [= <-]; tauto].
  destruct (validate_user_models j) as [us|e'] eqn:Hv; [discriminate|].
  apply validate_user_models_raises in Hv.
  destruct Hv as [->|[->|[->| ->]]]; intros [= <-]; tauto.
Qed.

(** The part of [user_stats] that works on [all_ages] alone always goes
    through; what is left is the five bucket methods. *)
Lemma user_stats_front (self : UserStatsUtils) (w : World) :
  all_ages self <> [] ->
  user_stats self w =
  (a <- get_lt_period_offline_users_avg_age self two_days ;;
   b <- get_lt_period_offline_users_avg_age self week ;;
   c <- get_lt_period_offline_users_avg_age self month ;;
   d <- get_lt_period_offline_users_avg_age self half_of_year ;;
   e <- get_gt_half_of_year_offline_users_avg_age self ;;
   ret (stats_dict
          (nth (length (all_ages self) - 1) (all_ages self) 0)
          (nth 0 (all_ages self) 0)
          (py_sum (all_ages self) / len (all_ages self))
          (median_age_of (all_ages self))
          a b c d e)) w.
Proof.
  intros Hl. pose proof (len_pos _ Hl) as Hpos.
  unfold user_stats. cbv zeta.
  destruct (Z.eqb_spec (len (all_ages self)) 0) as [E|_]; [lia|].
  unfold bind at 1. unfold lift at 1, py_floordiv at 1.
  change (2 =? 0) with false. cbv iota beta.
  unfold bind at 1. unfold bind at 1.
  pose proof (median_run (all_ages self) w Hl) as Hmed.
  unfold bind at 1 in Hmed.
  destruct (lift (py_getitem (all_ages self) (len (all_ages self) / 2)) w)
    as [w0 [m0|e0]] eqn:E0; [|discriminate].
  rewrite Hmed.
  rewrite (bind_run _ _ w w _ (f_equal (pair w) (py_getitem_last _ Hl))).
  rewrite (bind_run _ _ w w _
             (f_equal (pair w)
                (py_getitem_nth (all_ages self) 0 (conj (Z.le_refl 0) Hpos)))).
  unfold bind at 1. unfold lift at 1, py_floordiv at 1.
  destruct (Z.eqb_spec (len (all_ages self)) 0) as [E|_]; [lia|].
  reflexivity.
Qed.

Lemma user_stats_Raise (self : UserStatsUtils) (w : World) (e : exn) :
  all_ages self <> [] ->
  snd (users self w) = Raise e ->
  user_stats self w = (fst (users self w), Raise e).
Proof.
  intros Hl He. rewrite (user_stats_front self w Hl).
  apply bind_raise_run. unfold get_lt_period_offline_users_avg_age.
  apply bind_raise_run. rewrite <- He. apply surjective_pairing.
Qed.

(** X8. When [users] cannot be read, [user_stats] on non-empty [all_ages]
    raises the same exception and leaves the world as [users] left it: no
    part of the statistics is returned, although the age statistics do not
    depend on the users; an empty [all_ages] still gives the empty
    dictionary. *)
Theorem user_stats_propagates (self : UserStatsUtils) (w : World) (e : exn) :
  snd (users self w) = Raise e ->
  user_stats self w =
    if decide (all_ages self = []) then (w, Return ∅) else (fst (users self w), Raise e).
Proof.
  intros He. case_decide as Hl.
  - unfold user_stats. rewrite Hl. reflexivity.
  - by apply user_stats_Raise.
Qed.

(** X9. [user_stats] never raises [IndexError] or [ZeroDivisionError],
    whatever [all_ages] and the files hold: every index it uses is in range
    and every divisor is non-zero. *)
Theorem user_stats_indices_and_divisors_safe (self : UserStatsUtils) (w : World) :
  snd (user_stats self w) <> Raise IndexError /\
  snd (user_stats self w) <> Raise ZeroDivisionError.
Proof.
  destruct (all_ages self) as [|a0 rest] eqn:El.
  - unfold user_stats. rewrite El. cbn. split; discriminate.
  - assert (all_ages self <> []) as Hl by (rewrite El; discriminate).
    destruct (snd (users self w)) as [us|e] eqn:E.
    + rewrite (user_stats_run self w us Hl E). cbn [snd]. split; discriminate.
    + rewrite (user_stats_Raise self w e Hl E). cbn [snd].
      apply users_raises in E.
      destruct E as [->|[->|[->|[->|[->| ->]]]]]; split; discriminate.
Qed.

(** X10. The dictionary [user_stats] returns on non-empty [all_ages] has
    exactly the nine keys of the statistics. *)
Theorem user_stats_keys (self : UserStatsUtils) (w : World) (us : list User) :
  all_ages self <> [] ->
  snd (users self w) = Return us ->
  exists d : gmap string Z,
    snd (user_stats self w) = Return d /\
    forall key : string, is_Some (d !! key) <-> In key stats_keys.
Proof.
  intros Hl Hus. rewrite (user_stats_run self w us Hl Hus). cbn [snd].
  eexists. split; [reflexivity|]. intros key.
  unfold stats_of, stats_dict. cbv zeta.
  rewrite !lookup_insert_is_Some, lookup_empty, is_Some_alt.
  unfold stats_keys. simpl. intuition congruence.
Qed.

(** X11. A successful [user_stats] on non-empty [all_ages] leaves the output
    file empty, changes no other file, and has read the clock five times
    for every user: once per user in each bucket. *)
Theorem user_stats_effects (self : UserStatsUtils) (w : World) (us : list User) :
  all_ages self <> [] ->
  snd (users self w) = Return us ->
  fs (fst (user_stats self w)) !! output_file_path self = Some ""%string /\
  (forall path : string,
      path <> output_file_path self ->
      fs (fst (user_stats self w)) !! path = fs w !! path) /\
  now_calls (fst (user_stats self w)) = (now_calls w + 5 * length us)%nat.
Proof.
  intros Hl Hus. rewrite (user_stats_run self w us Hl Hus).
  cbn [fst fs now_calls]. unfold truncated.
  split; [apply lookup_insert_eq|]. split; [|reflexivity].
  intros path Hne. by apply lookup_insert_ne.
Qed.

(** ** Bounds on the statistics *)

Lemma py_sum_acc (l : list Z) (a : Z) : fold_left Z.add l a = a + py_sum l.
Proof.
  unfold py_sum. revert a. induction l as [|x l IH]; intros a; simpl; [lia|].
  rewrite (IH (a + x)), (IH (0 + x)). lia.
Qed.

Lemma py_sum_bounds (lo hi : Z) (l : list Z) :
  Forall (fun x => lo <= x <= hi) l ->
  len l * lo <= py_sum l <= len l * hi.
Proof.
  induction 1 as [|x l Hx _ IH].
  - unfold len, py_sum. simpl. lia.
  - unfold py_sum. simpl. rewrite py_sum_acc.
    unfold len in *. simpl length. rewrite Nat2Z.inj_succ. lia.
Qed.

Lemma floor_avg_bounds (lo hi : Z) (l : list Z) :
  l <> [] ->
  Forall (fun x => lo <= x <= hi) l ->
  lo <= py_sum l / len l <= hi.
Proof.
  intros Hl Hall. pose proof (len_pos l Hl) as Hpos.
  pose proof (py_sum_bounds lo hi l Hall) as [Hlo Hhi]. split.
  - apply Z.div_le_lower_bound; lia.
  - apply Z.div_le_upper_bound; lia.
Qed.

Lemma bucket_avg_bounds (lo hi : Z) (ages : list Z) :
  ages <> [] ->
  Forall (fun x => lo <= x <= hi) ages ->
  lo <= bucket_avg ages <= hi.
Proof.
  intros Hl Hall. pose proof (len_pos ages Hl) as Hpos. unfold bucket_avg.
  destruct (Z.eqb_spec (len ages) 0); [lia|]. by apply floor_avg_bounds.
Qed.

Lemma nth_bounds (lo hi : Z) (l : list Z) (i : nat) :
  Forall (fun x => lo <= x <= hi) l ->
  (i < length l)%nat ->
  lo <= nth i l 0 <= hi.
Proof.
  intros Hall Hi. rewrite Forall_forall in Hall.
  apply Hall, list_elem_of_In, nth_In, Hi.
Qed.

Lemma median_bounds (lo hi : Z) (l : list Z) :
  l <> [] ->
  Forall (fun x => lo <= x <= hi) l ->
  lo <= median_age_of l <= hi.
Proof.
  intros Hl Hall. pose proof (len_pos l Hl) as Hpos.
  assert (0 <= len l / 2 < len l) as Hhalf.
  { split; [apply Z.div_pos; lia | apply Z.div_lt_upper_bound; lia]. }
  assert (lo <= nth (Z.to_nat (len l / 2)) l 0 <= hi) as Hmid.
  { apply nth_bounds; [exact Hall | unfold len in *; lia]. }
  unfold median_age_of. cbv zeta.
  destruct (Z.eqb_spec (len l mod 2) 0) as [Heven|_]; [|exact Hmid].
  assert (lo <= nth (Z.to_nat (len l / 2 - 1)) l 0 <= hi) as Hprev.
  { apply nth_bounds; [exact Hall | unfold len in *; lia]. }
  split.
  - apply Z.div_le_lower_bound; lia.
  - apply Z.div_le_upper_bound; lia.
Qed.

Lemma lt_kept_Forall (P : User -> Prop) (p : Period) (k : nat) (us : list User) :
  Forall P us -> Forall P (lt_kept p k us).
Proof.
  intros H. revert k. induction H as [|u rest Hu _ IH]; intros k; simpl; [constructor|].
  destruct (offline_duration k u <? timedelta_days (Period_value p));
    [constructor; [exact Hu|] |]; apply IH.
Qed.

Lemma gt_kept_Forall (P : Z -> Prop) (k : nat) (us : list User) :
  Forall (fun u => P (age u)) us -> Forall P (gt_kept k us).
Proof.
  intros H. revert k. induction H as [|u rest Hu _ IH]; intros k; simpl; [constructor|].
  destruct (timedelta_days (Period_value half_of_year) <? offline_duration k u);
    [constructor; [exact Hu|] |]; apply IH.
Qed.

(** X12. When every age of non-empty [all_ages] lies between [lo] and
    [hi], so do the four age statistics [user_stats] returns: 'min_age',
    'max_age', 'avg_age' and 'median_age'. *)
Theorem user_stats_within_bounds (self : UserStatsUtils) (w : World) (us : list User)
    (lo hi : Z) :
  all_ages self <> [] ->
  snd (users self w) = Return us ->
  Forall (fun x => lo <= x <= hi) (all_ages self) ->
  exists d : gmap string Z,
    snd (user_stats self w) = Return d /\
    forall key : string,
      In key ["min_age"; "max_age"; "avg_age"; "median_age"]%string ->
      exists v : Z, d !! key = Some v /\ lo <= v <= hi.
Proof.
  intros Hl Hus Hall. rewrite (user_stats_run self w us Hl Hus). cbn [snd].
  eexists. split; [reflexivity|]. unfold stats_of. cbv zeta.
  pose proof (len_pos _ Hl) as Hpos. unfold len in Hpos.
  intros key [<-|[<-|[<-|[<-|[]]]]]; eexists; (split; [reflexivity|]).
  - apply nth_bounds; [exact Hall | lia].
  - apply nth_bounds; [exact Hall | lia].
  - by apply floor_avg_bounds.
  - by apply median_bounds.
Qed.

(** X13. For [all_ages] in ascending order the statistics are ordered:
    'min_age' is at most 'median_age' and 'avg_age', and these are at most
    'max_age'. *)
Theorem user_stats_ordered (self : UserStatsUtils) (w : World) (us : list User) :
  all_ages self <> [] ->
  snd (users self w) = Return us ->
  Sorted Z.le (all_ages self) ->
  exists (d : gmap string Z) (mn med avg mx : Z),
    snd (user_stats self w) = Return d /\
    d !! "min_age"%string = Some mn /\
    d !! "median_age"%string = Some med /\
    d !! "avg_age"%string = Some avg /\
    d !! "max_age"%string = Some mx /\
    mn <= med <= mx /\ mn <= avg <= mx.
Proof.
  intros Hl Hus Hs. rewrite (user_stats_run self w us Hl Hus). cbn [snd].
  unfold stats_of. cbv zeta. eexists _, _, _, _, _.
  split; [reflexivity|]. split; [apply stats_min_age|].
  split; [apply stats_median_age|]. split; [apply stats_avg_age|].
  split; [apply stats_max_age|].
  assert (Forall (fun x => nth 0 (all_ages self) 0 <= x <=
                           nth (length (all_ages self) - 1) (all_ages self) 0)
            (all_ages self)) as Hall.
  { pose proof (sorted_head_least _ Hs) as H1.
    pose proof (sorted_last_greatest _ Hs) as H2.
    rewrite Forall_forall in *. intros x Hx. split; [by apply H1 | by apply H2]. }
  split; [by apply median_bounds | by apply floor_avg_bounds].
Qed.

(** X14. When the age of every user lies between [lo] and [hi], each bucket
    method returns 0 for an empty bucket and a value between [lo] and [hi]
    otherwise; with ages that are not negative no bucket average is
    negative. *)
Theorem bucket_averages_within_bounds (self : UserStatsUtils) (p : Period) (w : World)
    (us : list User) (lo hi : Z) :
  snd (users self w) = Return us ->
  Forall (fun u => lo <= age u <= hi) us ->
  (exists q : Z,
      snd (get_lt_period_offline_users_avg_age self p w) = Return q /\
      (lt_bucket p (now_calls w) us = [] /\ q = 0 \/
       lt_bucket p (now_calls w) us <> [] /\ lo <= q <= hi)) /\
  (exists q : Z,
      snd (get_gt_half_of_year_offline_users_avg_age self w) = Return q /\
      (gt_bucket (now_calls w) us = [] /\ q = 0 \/
       gt_bucket (now_calls w) us <> [] /\ lo <= q <= hi)).
Proof.
  intros Hus Hall. split.
  - rewrite (get_lt_run0 self p w us Hus). cbn [snd]. eexists. split; [reflexivity|].
    pose proof (lt_kept_Forall _ p (now_calls w) us Hall) as Hk.
    rewrite lt_kept_bucket in Hk.
    destruct (lt_bucket p (now_calls w) us) as [|u rest] eqn:E; [by left|].
    right. split; [discriminate|].
    apply bucket_avg_bounds; [discriminate|]. by apply Forall_map.
  - rewrite (get_gt_run0 self w us Hus). cbn [snd]. eexists. split; [reflexivity|].
    pose proof (gt_kept_Forall (fun x => lo <= x <= hi) (now_calls w) us Hall) as Hk.
    rewrite gt_kept_bucket in Hk.
    destruct (gt_bucket (now_calls w) us) as [|u rest] eqn:E; [by left|].
    right. split; [discriminate|].
    apply bucket_avg_bounds; [discriminate | exact Hk].
Qed.

(** ** A clock that stands still

    When all the readings of the clock are the same instant, as when the
    whole computation takes less than a microsecond, the buckets are plain
    filters of the users. *)

Lemma lt_kept_frozen (t : datetime) (p : Period) (k : nat) (us : list User) :
  (forall i : nat, clock i = t) ->
  lt_kept p k us =
  List.filter (fun u => t - last_login u <? Period_value p * microseconds_per_day) us.
Proof.
  intros Ht. revert k. induction us as [|u rest IH]; intros k; simpl; [reflexivity|].
  unfold offline_duration, timedelta_days. rewrite Ht, IH. reflexivity.
Qed.

Lemma gt_kept_frozen (t : datetime) (k : nat) (us : list User) :
  (forall i : nat, clock i = t) ->
  gt_kept k us =
  map age
    (List.filter
       (fun u => Period_value half_of_year * microseconds_per_day <? t - last_login u) us).
Proof.
  intros Ht. revert k. induction us as [|u rest IH]; intros k; simpl; [reflexivity|].
  unfold offline_duration, timedelta_days. rewrite Ht, IH.
  by destruct (Period_value half_of_year * microseconds_per_day <? t - last_login u).
Qed.

(** X15. With a clock that stands at [t], the two bucket methods return the
    average age of the users selected by comparing [t] minus the last login
    with the period: the result no longer depends on where in the sequence
    of readings the method starts. *)
Theorem frozen_clock_buckets (self : UserStatsUtils) (p : Period) (w : World)
    (us : list User) (t : datetime) :
  (forall i : nat, clock i = t) ->
  snd (users self w) = Return us ->
  snd (get_lt_period_offline_users_avg_age self p w) =
    Return (bucket_avg
              (map age
                 (List.filter
                    (fun u => t - last_login u <? Period_value p * microseconds_per_day)
                    us))) /\
  snd (get_gt_half_of_year_offline_users_avg_age self w) =
    Return (bucket_avg
              (map age
                 (List.filter
                    (fun u =>
                       Period_value half_of_year * microseconds_per_day
                         <? t - last_login u)
                    us))).
Proof.
  intros Ht Hus. split.
  - rewrite (get_lt_run0 self p w us Hus). cbn [snd].
    by rewrite <- lt_kept_bucket, (lt_kept_frozen t).
  - rewrite (get_gt_run0 self w us Hus). cbn [snd].
    by rewrite <- gt_kept_bucket, (gt_kept_frozen t).
Qed.

Lemma py_filter_frozen (t : datetime) (p : Period) (us : list User) (w : World) :
  (forall i : nat, clock i = t) ->
  snd (py_filter (fun u => user_is_offline_lt_target_period u p) us w) =
  Return (List.filter
            (fun u => t - last_login u <? Period_value p * microseconds_per_day) us).
Proof.
  intros Ht. destruct w as [f k]. rewrite py_filter_run. cbn [snd].
  by rewrite (lt_kept_frozen t).
Qed.

Lemma gt_loop_frozen (t : datetime) (us : list User) (w : World) :
  (forall i : nat, clock i = t) ->
  snd (gt_loop us [] w) =
  Return (map age
            (List.filter
               (fun u => Period_value half_of_year * microseconds_per_day
                           <? t - last_login u) us)).
Proof.
  intros Ht. destruct w as [f k]. rewrite gt_loop_run. cbn [snd]. simpl app.
  by rewrite (gt_kept_frozen t).
Qed.

Lemma filter_shorter_period (t : datetime) (p q : Period) (us : list User) :
  Period_value p <= Period_value q ->
  List.filter (fun u => t - last_login u <? Period_value p * microseconds_per_day)
    (List.filter (fun u => t - last_login u <? Period_value q * microseconds_per_day) us) =
  List.filter (fun u => t - last_login u <? Period_value p * microseconds_per_day) us.
Proof.
  intros Hpq. induction us as [|u rest IH]; simpl; [reflexivity|].
  destruct (Z.ltb_spec (t - last_login u) (Period_value p * microseconds_per_day))
    as [Hp|Hp].
  - assert ((t - last_login u <? Period_value q * microseconds_per_day) = true) as ->.
    { apply Z.ltb_lt. unfold microseconds_per_day in *. lia. }
    simpl. apply Z.ltb_lt in Hp. rewrite Hp, IH. reflexivity.
  - destruct (t - last_login u <? Period_value q * microseconds_per_day); simpl.
    + apply Z.ltb_ge in Hp. rewrite Hp. exact IH.
    + exact IH.
Qed.

(** X16. With a clock that stands still, the filter of the less-than
    method nests: when period [p] has no more days than period [q], running
    the filter for [p] on the users the filter for [q] kept gives what the
    filter for [p] keeps of all the users; so the bucket of [p] is part of
    the bucket of [q] and no larger. *)
Theorem frozen_clock_buckets_nested (p q : Period) (us : list User) (t : datetime)
    (w1 w2 w3 : World) :
  (forall i : nat, clock i = t) ->
  Period_value p <= Period_value q ->
  exists kept_p kept_q : list User,
    snd (py_filter (fun u => user_is_offline_lt_target_period u p) us w1)
      = Return kept_p /\
    snd (py_filter (fun u => user_is_offline_lt_target_period u q) us w2)
      = Return kept_q /\
    snd (py_filter (fun u => user_is_offline_lt_target_period u p) kept_q w3)
      = Return kept_p /\
    (length kept_p <= length kept_q)%nat.
Proof.
  intros Ht Hpq. eexists _, _.
  split; [by apply (py_filter_frozen t)|].
  split; [by apply (py_filter_frozen t)|].
  split.
  - rewrite (py_filter_frozen t) by exact Ht.
    by rewrite (filter_shorter_period t p q us Hpq).
  - rewrite <- (filter_shorter_period t p q us Hpq). apply filter_length_le.
Qed.

(** X17. With a clock that stands still, the filter of the less-than method
    for the half-of-year period and the loop of the greater-than method
    split the users: the users the filter keeps, the ages the loop appends
    and the users offline for exactly the period are together as many as
    the users. *)
Theorem frozen_clock_half_of_year_split (us : list User) (t : datetime)
    (w1 w2 : World) :
  (forall i : nat, clock i = t) ->
  exists (kept : list User) (ages : list Z),
    snd (py_filter (fun u => user_is_offline_lt_target_period u half_of_year) us w1)
      = Return kept /\
    snd (gt_loop us [] w2) = Return ages /\
    (length kept + length ages +
     length (List.filter
               (fun u =>
                  (t - last_login u =? Period_value half_of_year * microseconds_per_day)%Z)
               us))%nat = length us.
Proof.
  intros Ht. eexists _, _.
  split; [by apply (py_filter_frozen t)|].
  split; [by apply (gt_loop_frozen t)|].
  rewrite length_map.
  induction us as [|u rest IH]; simpl; [reflexivity|].
  destruct (Z.ltb_spec (t - last_login u) (Period_value half_of_year * microseconds_per_day));
    destruct (Z.ltb_spec (Period_value half_of_year * microseconds_per_day) (t - last_login u));
    destruct (Z.eqb_spec (t - last_login u) (Period_value half_of_year * microseconds_per_day));
    simpl; lia.
Qed.

End UserStats.

(** ** The claims, run in the concrete setting *)

Lemma users_invalid_json_witness :
  snd (users Demo.RawUser Demo.ErrorObject Demo.json_loads Demo.json_dumps
         Demo.create_error_object Demo.get_valid_dict_to_str
         Demo.msgspec_json_decode Demo.User_init
         (Demo.self []) (Demo.world "{oops")) = Raise JSONDecodeError /\
  fs (fst (users Demo.RawUser Demo.ErrorObject Demo.json_loads Demo.json_dumps
             Demo.create_error_object Demo.get_valid_dict_to_str
             Demo.msgspec_json_decode Demo.User_init
             (Demo.self []) (Demo.world "{oops"))) !! "out.json"%string =
    Some "Invalid JSON file provided"%string.
Proof.
  apply (users_invalid_json Demo.RawUser Demo.ErrorObject Demo.json_loads
           Demo.json_dumps Demo.create_error_object Demo.get_valid_dict_to_str
           Demo.msgspec_json_decode Demo.User_init
           (Demo.self []) (Demo.world "{oops") "{oops").
  - exists "{oops"%string. reflexivity.
  - reflexivity.
  - reflexivity.
Defined.

Local Abbreviation demo_users :=
  (users Demo.RawUser Demo.ErrorObject Demo.json_loads Demo.json_dumps
     Demo.create_error_object Demo.get_valid_dict_to_str
     Demo.msgspec_json_decode Demo.User_init).

Local Abbreviation demo_user_stats :=
  (user_stats Demo.RawUser Demo.ErrorObject Demo.json_loads Demo.json_dumps
     Demo.create_error_object Demo.get_valid_dict_to_str
     Demo.msgspec_json_decode Demo.User_init Demo.Period_value Demo.clock).

Local Abbreviation demo_get_lt clock :=
  (get_lt_period_offline_users_avg_age Demo.RawUser Demo.ErrorObject
     Demo.json_loads Demo.json_dumps Demo.create_error_object
     Demo.get_valid_dict_to_str Demo.msgspec_json_decode Demo.User_init
     Demo.Period_value clock).

Local Abbreviation demo_get_gt clock :=
  (get_gt_half_of_year_offline_users_avg_age Demo.RawUser Demo.ErrorObject
     Demo.json_loads Demo.json_dumps Demo.create_error_object
     Demo.get_valid_dict_to_str Demo.msgspec_json_decode Demo.User_init
     Demo.Period_value clock).

Lemma demo_users_three (ages : list Z) :
  snd (demo_users (Demo.self ages) (Demo.world "three users")) = Return Demo.three.
Proof. reflexivity. Defined.

Lemma demo_validates_three :
  Forall2 (validates Demo.RawUser Demo.get_valid_dict_to_str
             Demo.msgspec_json_decode Demo.User_init)
    [Demo.ann; Demo.bob; Demo.cy] Demo.three.
Proof. repeat constructor. Defined.


(** C1, as stated, fails on ages that are not in ascending order: for
    [3; 1; 2] the dictionary holds 3 under 'min_age' and 2 under 'max_age',
    while 1 is smaller than 3 and 3 is greater than 2. *)
Lemma user_stats_min_max_unsorted :
  exists d : gmap string Z,
    snd (demo_user_stats (Demo.self [3; 1; 2]) (Demo.world "three users")) = Return d /\
    d !! "min_age"%string = Some 3 /\
    ~ Forall (fun x => 3 <= x) [3; 1; 2] /\
    d !! "max_age"%string = Some 2 /\
    ~ Forall (fun x => x <= 2) [3; 1; 2].
Proof.
  eexists. split; [|split; [|split; [|split]]].
  - rewrite (user_stats_run _ _ _ _ _ _ _ _ _ _ _ _ Demo.three);
      [reflexivity | discriminate | reflexivity].
  - reflexivity.
  - intros H. apply Forall_cons_1 in H as [_ H]. apply Forall_cons_1 in H as [H _]. lia.
  - reflexivity.
  - intros H. apply Forall_cons_1 in H as [H _]. lia.
Qed.

(** C2, as stated, fails on ages that are not in ascending order: for
    [3; 1; 2] the dictionary holds 1, the element in the middle position,
    under 'median_age', while the median of the three ages is 2. *)
Lemma user_stats_median_unsorted :
  exists d : gmap string Z,
    snd (demo_user_stats (Demo.self [3; 1; 2]) (Demo.world "three users")) = Return d /\
    d !! "median_age"%string = Some 1 /\
    spec_median [3; 1; 2] = 2.
Proof.
  eexists. split; [|split].
  - rewrite (user_stats_run _ _ _ _ _ _ _ _ _ _ _ _ Demo.three);
      [reflexivity | discriminate | reflexivity].
  - reflexivity.
  - reflexivity.
Qed.


Lemma user_stats_min_max_witness :
  exists d : gmap string Z,
    snd (demo_user_stats (Demo.self [18; 25; 40]) (Demo.world "three users")) = Return d /\
    d !! "min_age"%string = Some 18 /\
    d !! "max_age"%string = Some 40 /\
    Forall (fun x => 18 <= x) [18; 25; 40] /\
    Forall (fun x => x <= 40) [18; 25; 40].
Proof.
  destruct (user_stats_min_max Demo.RawUser Demo.ErrorObject Demo.json_loads
              Demo.json_dumps Demo.create_error_object Demo.get_valid_dict_to_str
              Demo.msgspec_json_decode Demo.User_init Demo.Period_value Demo.clock
              (Demo.self [18; 25; 40]) (Demo.world "three users") Demo.three
              ltac:(discriminate) (demo_users_three _))
    as (d & mn & mx & Hd & Hmn & Hmx & Hfirst & Hlast & Hsorted).
  injection Hfirst as <-. injection Hlast as <-.
  exists d. split; [exact Hd|]. split; [exact Hmn|]. split; [exact Hmx|].
  apply Hsorted. repeat constructor; lia.
Defined.

Lemma user_stats_median_witness :
  (exists d : gmap string Z,
      snd (demo_user_stats (Demo.self [18; 25; 40]) (Demo.world "three users")) = Return d /\
      d !! "median_age"%string = Some 25) /\
  (exists d : gmap string Z,
      snd (demo_user_stats (Demo.self [18; 25; 40; 41]) (Demo.world "three users"))
        = Return d /\
      d !! "median_age"%string = Some 32).
Proof.
  split.
  - destruct (user_stats_median Demo.RawUser Demo.ErrorObject Demo.json_loads
                Demo.json_dumps Demo.create_error_object Demo.get_valid_dict_to_str
                Demo.msgspec_json_decode Demo.User_init Demo.Period_value Demo.clock
                (Demo.self [18; 25; 40]) (Demo.world "three users") Demo.three
                ltac:(discriminate) (demo_users_three _))
      as (d & med & Hd & Hmed & Hodd & _ & _).
    exists d. split; [exact Hd|].
    rewrite (Hodd 1%nat 25 eq_refl eq_refl) in Hmed. exact Hmed.
  - destruct (user_stats_median Demo.RawUser Demo.ErrorObject Demo.json_loads
                Demo.json_dumps Demo.create_error_object Demo.get_valid_dict_to_str
                Demo.msgspec_json_decode Demo.User_init Demo.Period_value Demo.clock
                (Demo.self [18; 25; 40; 41]) (Demo.world "three users") Demo.three
                ltac:(discriminate) (demo_users_three _))
      as (d & med & Hd & Hmed & _ & Heven & _).
    exists d. split; [exact Hd|].
    pose proof (Heven 1%nat 25 40 eq_refl eq_refl eq_refl) as Hfloor.
    unfold is_floor_div in Hfloor.
    assert (med = 32) as -> by lia. exact Hmed.
Defined.

Lemma user_stats_averages_witness :
  exists d : gmap string Z,
    snd (demo_user_stats (Demo.self [18; 25; 40]) (Demo.world "three users")) = Return d /\
    d !! "avg_age"%string = Some 27 /\
    d !! "lt_month_offline_users_average_age"%string = Some 32.
Proof.
  destruct (user_stats_averages Demo.RawUser Demo.ErrorObject Demo.json_loads
              Demo.json_dumps Demo.create_error_object Demo.get_valid_dict_to_str
              Demo.msgspec_json_decode Demo.User_init Demo.Period_value Demo.clock
              (Demo.self [18; 25; 40]) (Demo.world "three users") Demo.three
              ltac:(discriminate) (demo_users_three _))
    as (d & avg & Hd & Havg & Hfloor & _ & _ & (q & Hq & Hmonth) & _).
  exists d. split; [exact Hd|].
  change (py_sum (all_ages (Demo.self [18; 25; 40]))) with 83 in Hfloor.
  change (len (all_ages (Demo.self [18; 25; 40]))) with 3 in Hfloor.
  change (map age (lt_bucket Demo.Period_value Demo.clock month
                     (now_calls (Demo.world "three users") + 2 * length Demo.three)
                     Demo.three))
    with [20; 44] in Hmonth.
  specialize (Hmonth ltac:(discriminate)).
  change (py_sum [20; 44]) with 64 in Hmonth.
  change (len [20; 44]) with 2 in Hmonth.
  unfold is_floor_div in Hfloor, Hmonth.
  assert (avg = 27) as -> by lia. assert (q = 32) as -> by lia.
  split; [exact Havg | exact Hq].
Defined.

Lemma lt_period_bucket_witness :
  snd (demo_get_lt Demo.clock (Demo.self []) month (Demo.world "three users")) = Return 32.
Proof.
  exact (proj1 (proj2 (lt_period_bucket Demo.RawUser Demo.ErrorObject Demo.json_loads
                         Demo.json_dumps Demo.create_error_object
                         Demo.get_valid_dict_to_str Demo.msgspec_json_decode
                         Demo.User_init Demo.Period_value Demo.clock
                         (Demo.self []) month (Demo.world "three users") Demo.three
                         (demo_users_three _)))).
Defined.

Lemma gt_half_of_year_bucket_witness :
  snd (demo_get_gt Demo.late_clock (Demo.self []) (Demo.world "three users")) = Return 31.
Proof.
  exact (proj1 (gt_half_of_year_bucket Demo.RawUser Demo.ErrorObject Demo.json_loads
                  Demo.json_dumps Demo.create_error_object
                  Demo.get_valid_dict_to_str Demo.msgspec_json_decode
                  Demo.User_init Demo.Period_value Demo.late_clock
                  (Demo.self []) (Demo.world "three users") Demo.three
                  (demo_users_three _))).
Defined.

Lemma buckets_never_divide_by_zero_witness :
  snd (demo_get_lt Demo.late_clock (Demo.self []) week (Demo.world "three users"))
    = Return 0 /\
  snd (demo_get_gt Demo.clock (Demo.self []) (Demo.world "three users")) = Return 0.
Proof.
  split.
  - apply (proj1 (proj2 (proj2
             (buckets_never_divide_by_zero Demo.RawUser Demo.ErrorObject Demo.json_loads
                Demo.json_dumps Demo.create_error_object Demo.get_valid_dict_to_str
                Demo.msgspec_json_decode Demo.User_init Demo.Period_value
                Demo.late_clock (Demo.self []) week (Demo.world "three users"))))
            Demo.three (demo_users_three _)).
    reflexivity.
  - apply (proj2 (proj2 (proj2
             (buckets_never_divide_by_zero Demo.RawUser Demo.ErrorObject Demo.json_loads
                Demo.json_dumps Demo.create_error_object Demo.get_valid_dict_to_str
                Demo.msgspec_json_decode Demo.User_init Demo.Period_value
                Demo.clock (Demo.self []) week (Demo.world "three users"))))
            Demo.three (demo_users_three _)).
    reflexivity.
Defined.

Lemma exactly_half_of_year_in_neither_witness :
  user_is_offline_lt_target_period Demo.Period_value Demo.clock
    (mkUser 50 (- (80 * 86400000000))) half_of_year (Demo.world "three users") =
    (mkWorld (fs (Demo.world "three users")) 1, Return false) /\
  gt_bucket Demo.Period_value Demo.clock 0 [mkUser 50 (- (80 * 86400000000))] = [].
Proof.
  destruct (exactly_half_of_year_in_neither Demo.Period_value Demo.clock
              (mkUser 50 (- (80 * 86400000000))) (Demo.world "three users") [] []
              eq_refl)
    as (Hlt & _ & _ & Hgt).
  split; [exact Hlt | exact Hgt].
Defined.

(** ** The further properties, run in the concrete setting *)

Lemma users_missing_data_file_witness :
  demo_users (Demo.self []) (mkWorld ∅ 7) = (mkWorld ∅ 7, Raise FileNotFoundError).
Proof.
  exact (users_missing_data_file Demo.RawUser Demo.ErrorObject Demo.json_loads Demo.json_dumps
           Demo.create_error_object Demo.get_valid_dict_to_str
           Demo.msgspec_json_decode Demo.User_init
           (Demo.self []) (mkWorld ∅ 7) eq_refl).
Defined.

Lemma users_file_effects_witness :
  fs (fst (demo_users (Demo.self []) (Demo.world "broken record"))) !! "out.json"%string =
    Some "Validation error for user items"%string /\
  fs (fst (demo_users (Demo.self []) (Demo.world "broken record"))) !! "in.json"%string =
    Some "broken record"%string.
Proof.
  assert (snd (demo_users (Demo.self []) (Demo.world "broken record"))
          <> Raise FileNotFoundError) as Hopened.
  { change (snd (demo_users (Demo.self []) (Demo.world "broken record")))
      with (@Raise (list User) ValidationError).
    discriminate. }
  destruct (users_file_effects Demo.RawUser Demo.ErrorObject Demo.json_loads Demo.json_dumps
              Demo.create_error_object Demo.get_valid_dict_to_str
              Demo.msgspec_json_decode Demo.User_init
              (Demo.self []) (Demo.world "broken record") Hopened)
    as (Hout & Hother & _).
  split; [exact Hout|]. apply (Hother "in.json"%string). discriminate.
Defined.

Lemma users_non_mapping_witness :
  snd (demo_users (Demo.self []) (Demo.world "a list")) = Raise AttributeError /\
  fs (fst (demo_users (Demo.self []) (Demo.world "a list"))) !! "out.json"%string =
    Some ""%string.
Proof.
  exact (users_non_mapping Demo.RawUser Demo.ErrorObject Demo.json_loads Demo.json_dumps
           Demo.create_error_object Demo.get_valid_dict_to_str
           Demo.msgspec_json_decode Demo.User_init
           (Demo.self []) (Demo.world "a list") "a list"
           (ex_intro _ "a list"%string eq_refl) eq_refl eq_refl).
Defined.

Lemma users_same_file_witness :
  snd (demo_users (mkUserStatsUtils "in.json" "in.json" []) (Demo.world "three users"))
    = Raise JSONDecodeError /\
  fs (fst (demo_users (mkUserStatsUtils "in.json" "in.json" [])
             (Demo.world "three users"))) !! "in.json"%string =
    Some "Invalid JSON file provided"%string.
Proof.
  exact (users_same_file Demo.RawUser Demo.ErrorObject Demo.json_loads Demo.json_dumps
           Demo.create_error_object Demo.get_valid_dict_to_str
           Demo.msgspec_json_decode Demo.User_init
           (mkUserStatsUtils "in.json" "in.json" []) (Demo.world "three users")
           eq_refl (ex_intro _ "three users"%string eq_refl) eq_refl).
Defined.

Lemma validate_user_models_returns_witness :
  validate_user_models Demo.RawUser Demo.get_valid_dict_to_str Demo.msgspec_json_decode Demo.User_init
    (JObject [("ann", Demo.ann); ("bob", Demo.bob); ("cy", Demo.cy)]%string) =
  Return Demo.three.
Proof.
  apply (proj2 (validate_user_models_returns Demo.RawUser Demo.get_valid_dict_to_str Demo.msgspec_json_decode Demo.User_init
                  [("ann", Demo.ann); ("bob", Demo.bob); ("cy", Demo.cy)]%string
                  Demo.three)).
  exact demo_validates_three.
Defined.

Lemma validate_user_models_first_failure_witness :
  validate_user_models Demo.RawUser Demo.get_valid_dict_to_str Demo.msgspec_json_decode Demo.User_init
    (JObject [("ann", Demo.ann); ("x", Demo.nameless); ("cy", Demo.cy)]%string) =
  Raise ValidationError.
Proof.
  apply (validate_user_models_first_failure Demo.RawUser Demo.get_valid_dict_to_str Demo.msgspec_json_decode Demo.User_init
           [("ann", Demo.ann)]%string [("cy", Demo.cy)]%string "x" Demo.nameless
           [mkUser 31 0]).
  repeat constructor.
Defined.

Lemma user_stats_propagates_witness :
  snd (demo_user_stats (Demo.self [18]) (Demo.world "{oops")) = Raise JSONDecodeError.
Proof.
  rewrite (user_stats_propagates Demo.RawUser Demo.ErrorObject Demo.json_loads Demo.json_dumps
           Demo.create_error_object Demo.get_valid_dict_to_str
           Demo.msgspec_json_decode Demo.User_init Demo.Period_value Demo.clock
             (Demo.self [18]) (Demo.world "{oops") JSONDecodeError eq_refl).
  reflexivity.
Defined.

Lemma user_stats_keys_witness :
  exists d : gmap string Z,
    snd (demo_user_stats (Demo.self [18; 25; 40]) (Demo.world "three users")) = Return d /\
    is_Some (d !! "avg_age"%string) /\
    d !! "name"%string = None.
Proof.
  destruct (user_stats_keys Demo.RawUser Demo.ErrorObject Demo.json_loads Demo.json_dumps
           Demo.create_error_object Demo.get_valid_dict_to_str
           Demo.msgspec_json_decode Demo.User_init Demo.Period_value Demo.clock
              (Demo.self [18; 25; 40]) (Demo.world "three users") Demo.three
              ltac:(discriminate) (demo_users_three _))
    as (d & Hd & Hkeys).
  exists d. split; [exact Hd|]. split.
  - apply Hkeys. simpl. tauto.
  - destruct (d !! "name"%string) as [v|] eqn:E; [|reflexivity].
    exfalso. assert (is_Some (d !! "name"%string)) as Hs by (rewrite E; eauto).
    apply Hkeys in Hs. simpl in Hs. intuition discriminate.
Defined.

Lemma user_stats_effects_witness :
  fs (fst (demo_user_stats (Demo.self [18; 25; 40]) (Demo.world "three users")))
    !! "out.json"%string = Some ""%string /\
  now_calls (fst (demo_user_stats (Demo.self [18; 25; 40]) (Demo.world "three users")))
    = 15%nat.
Proof.
  destruct (user_stats_effects Demo.RawUser Demo.ErrorObject Demo.json_loads Demo.json_dumps
           Demo.create_error_object Demo.get_valid_dict_to_str
           Demo.msgspec_json_decode Demo.User_init Demo.Period_value Demo.clock
              (Demo.self [18; 25; 40]) (Demo.world "three users") Demo.three
              ltac:(discriminate) (demo_users_three _))
    as (Hout & _ & Hclock).
  split; [exact Hout | exact Hclock].
Defined.

Lemma user_stats_within_bounds_witness :
  exists d : gmap string Z,
    snd (demo_user_stats (Demo.self [18; 25; 40]) (Demo.world "three users")) = Return d /\
    exists v : Z, d !! "avg_age"%string = Some v /\ 18 <= v <= 40.
Proof.
  destruct (user_stats_within_bounds Demo.RawUser Demo.ErrorObject Demo.json_loads Demo.json_dumps
           Demo.create_error_object Demo.get_valid_dict_to_str
           Demo.msgspec_json_decode Demo.User_init Demo.Period_value Demo.clock
              (Demo.self [18; 25; 40]) (Demo.world "three users") Demo.three 18 40
              ltac:(discriminate) (demo_users_three _)
              ltac:(repeat constructor; simpl; lia))
    as (d & Hd & Hbounds).
  exists d. split; [exact Hd|]. apply Hbounds. simpl. tauto.
Defined.

Lemma user_stats_ordered_witness :
  exists (d : gmap string Z) (mn med avg mx : Z),
    snd (demo_user_stats (Demo.self [18; 25; 40]) (Demo.world "three users")) = Return d /\
    d !! "min_age"%string = Some mn /\
    d !! "median_age"%string = Some med /\
    d !! "avg_age"%string = Some avg /\
    d !! "max_age"%string = Some mx /\
    mn <= med <= mx /\ mn <= avg <= mx.
Proof.
  apply (user_stats_ordered Demo.RawUser Demo.ErrorObject Demo.json_loads Demo.json_dumps
           Demo.create_error_object Demo.get_valid_dict_to_str
           Demo.msgspec_json_decode Demo.User_init Demo.Period_value Demo.clock
           (Demo.self [18; 25; 40]) (Demo.world "three users") Demo.three).
  - discriminate.
  - reflexivity.
  - repeat constructor; simpl; lia.
Defined.

Lemma bucket_averages_within_bounds_witness :
  exists q : Z,
    snd (demo_get_lt Demo.clock (Demo.self []) month (Demo.world "three users"))
      = Return q /\
    20 <= q <= 44.
Proof.
  destruct (bucket_averages_within_bounds Demo.RawUser Demo.ErrorObject Demo.json_loads Demo.json_dumps
           Demo.create_error_object Demo.get_valid_dict_to_str
           Demo.msgspec_json_decode Demo.User_init Demo.Period_value Demo.clock
              (Demo.self []) month (Demo.world "three users") Demo.three 20 44
              (demo_users_three _) ltac:(repeat constructor; simpl; lia))
    as [(q & Hq & [[Hempty _]|[_ Hb]]) _].
  - vm_compute in Hempty. discriminate Hempty.
  - exists q. split; [exact Hq | exact Hb].
Defined.

Lemma frozen_clock_buckets_witness :
  snd (demo_get_lt Demo.frozen_clock (Demo.self []) month (Demo.world "three users"))
    = Return 32 /\
  snd (demo_get_gt Demo.frozen_clock (Demo.self []) (Demo.world "three users"))
    = Return 0.
Proof.
  exact (frozen_clock_buckets Demo.RawUser Demo.ErrorObject Demo.json_loads Demo.json_dumps
           Demo.create_error_object Demo.get_valid_dict_to_str
           Demo.msgspec_json_decode Demo.User_init Demo.Period_value Demo.frozen_clock
           (Demo.self []) month (Demo.world "three users") Demo.three
           (100 * 86400000000) (fun _ => eq_refl) (demo_users_three _)).
Defined.

Lemma frozen_clock_buckets_nested_witness :
  exists kept_p kept_q : list User,
    snd (py_filter
           (fun u => user_is_offline_lt_target_period Demo.Period_value
                       Demo.frozen_clock u week)
           Demo.three (Demo.world "three users")) = Return kept_p /\
    snd (py_filter
           (fun u => user_is_offline_lt_target_period Demo.Period_value
                       Demo.frozen_clock u month)
           Demo.three (Demo.world "three users")) = Return kept_q /\
    snd (py_filter
           (fun u => user_is_offline_lt_target_period Demo.Period_value
                       Demo.frozen_clock u week)
           kept_q (Demo.world "three users")) = Return kept_p /\
    (length kept_p <= length kept_q)%nat.
Proof.
  apply (frozen_clock_buckets_nested Demo.Period_value Demo.frozen_clock
           week month Demo.three (100 * 86400000000)
           (Demo.world "three users") (Demo.world "three users")
           (Demo.world "three users")).
  - intros i. reflexivity.
  - simpl. lia.
Defined.

Lemma frozen_clock_half_of_year_split_witness :
  exists (kept : list User) (ages : list Z),
    snd (py_filter
           (fun u => user_is_offline_lt_target_period Demo.Period_value
                       Demo.frozen_clock u half_of_year)
           Demo.edge_pair (Demo.world "three users")) = Return kept /\
    snd (gt_loop Demo.Period_value Demo.frozen_clock Demo.edge_pair []
           (Demo.world "three users")) = Return ages /\
    (length kept + length ages +
     length (List.filter
               (fun u =>
                  (100 * 86400000000 - last_login u
                     =? Demo.Period_value half_of_year * microseconds_per_day)%Z)
               Demo.edge_pair))%nat = length Demo.edge_pair.
Proof.
  apply (frozen_clock_half_of_year_split Demo.Period_value Demo.frozen_clock
           Demo.edge_pair (100 * 86400000000)
           (Demo.world "three users") (Demo.world "three users")).
  intros i. reflexivity.
Defined.
